(** * gravity_bridge: a host temperature reporter

    A shallow embedding of [gravity_bridge.py] and the properties its
    specification states about it.

    Modelling conventions.
    - Text is [string] (ASCII code units): the outputs of the external tools,
      the sysfs file contents and the kernel release string are taken to be
      ASCII text.
    - A Python [float] is an exact rational ([Q]); binary64 rounding and
      overflow are not modelled.  Values are compared with [==] where a
      numeral is expected.
    - A Python exception is the [Raise] outcome of the [exc] monad; a
      [try ... except Exception: pass] block is [try_].
    - The outside world (kernel release, OS family, command line, file system,
      child processes) is an explicit [Env] record.
    - Lines printed to the error stream (the debug trace) are not part of the
      model; only standard output is recorded. *)

From Stdlib Require Import ZArith QArith Qabs Qround Lqa Lia Bool List Ascii String.
From Stdlib Require Import DecimalString.
From Stdlib Require DecimalN.
Import ListNotations.
Local Open Scope string_scope.
Local Open Scope Z_scope.

(** ** Exceptions *)

Inductive exc (A : Type) : Type :=
| Ret (a : A)
| Raise.
Arguments Ret {A} a.
Arguments Raise {A}.

Definition bind {A B : Type} (m : exc A) (k : A -> exc B) : exc B :=
  match m with
  | Ret a => k a
  | Raise => Raise
  end.

Notation "x <- m ;; k" := (bind m (fun x => k))
  (at level 61, m at next level, right associativity).

(** ** Python string operations (ASCII) *)

Module Py.

Definition is_digit (c : ascii) : bool :=
  let n := nat_of_ascii c in (48 <=? n)%nat && (n <=? 57)%nat.

(** [str.isspace] on one ASCII character: tab, the line breaks, the four
    separators 0x1c-0x1f and the space. *)
Definition is_space (c : ascii) : bool :=
  let n := nat_of_ascii c in
  ((9 <=? n)%nat && (n <=? 13)%nat) || ((28 <=? n)%nat && (n <=? 32)%nat).

Fixpoint all_digits (s : string) : bool :=
  match s with
  | EmptyString => true
  | String c s' => is_digit c && all_digits s'
  end.

Definition nonempty (s : string) : bool :=
  match s with
  | EmptyString => false
  | String _ _ => true
  end.

(** [s.isdigit()] *)
Definition isdigit (s : string) : bool := nonempty s && all_digits s.

Fixpoint lstrip (s : string) : string :=
  match s with
  | EmptyString => EmptyString
  | String c s' => if is_space c then lstrip s' else s
  end.

Fixpoint rstrip (s : string) : string :=
  match s with
  | EmptyString => EmptyString
  | String c s' =>
      match rstrip s' with
      | EmptyString => if is_space c then EmptyString else String c EmptyString
      | r => String c r
      end
  end.

(** [s.strip()] *)
Definition strip (s : string) : string := rstrip (lstrip s).

Definition lower_char (c : ascii) : ascii :=
  let n := nat_of_ascii c in
  if (65 <=? n)%nat && (n <=? 90)%nat then ascii_of_nat (n + 32) else c.

(** [s.lower()] *)
Fixpoint lower (s : string) : string :=
  match s with
  | EmptyString => EmptyString
  | String c s' => String (lower_char c) (lower s')
  end.

(** [s.startswith(p)] *)
Definition startswith (s p : string) : bool := String.prefix p s.

(** [sub in s] *)
Fixpoint contains (sub s : string) : bool :=
  String.prefix sub s ||
  match s with
  | EmptyString => false
  | String _ s' => contains sub s'
  end.

(** [s.endswith(p)] *)
Fixpoint endswith (s p : string) : bool :=
  String.eqb s p ||
  match s with
  | EmptyString => false
  | String _ s' => endswith s' p
  end.

(** [s.replace('.', '', 1)] *)
Fixpoint remove_first_dot (s : string) : string :=
  match s with
  | EmptyString => EmptyString
  | String c s' => if Ascii.eqb c "." then s' else String c (remove_first_dot s')
  end.

(** [os.path.join(a, b)] for two components (POSIX). *)
Definition ends_with_slash (a : string) : bool := endswith a "/".

Definition join (a b : string) : string :=
  if startswith b "/" then b
  else if orb (negb (nonempty a)) (ends_with_slash a) then a ++ b
  else a ++ "/" ++ b.

(** *** Numbers *)

Definition digit_value (c : ascii) : Z := Z.of_nat (nat_of_ascii c) - 48.

Fixpoint digits_value_from (acc : Z) (s : string) : Z :=
  match s with
  | EmptyString => acc
  | String c s' => digits_value_from (10 * acc + digit_value c) s'
  end.

(** The number a string of decimal digits denotes. *)
Definition digits_value (s : string) : Z := digits_value_from 0 s.

(** Splits at the first dot: the text before it and, when there is a dot,
    the text after it. *)
Fixpoint split_dot (s : string) : string * option string :=
  match s with
  | EmptyString => (EmptyString, None)
  | String c s' =>
      if Ascii.eqb c "." then (EmptyString, Some s')
      else let '(ip, fp) := split_dot s' in (String c ip, fp)
  end.

(** [float(s)] on the strings the program passes to it: texts made of
    decimal digits and dots.  A digit string is its integer value; digits
    around one dot, with a digit on at least one side, is the decimal
    fraction; everything else raises [ValueError]. *)
Definition float (s : string) : exc Q :=
  match split_dot s with
  | (ip, None) =>
      if isdigit ip then Ret (inject_Z (digits_value ip)) else Raise
  | (ip, Some fp) =>
      if all_digits ip && all_digits fp && (nonempty ip || nonempty fp)
      then Ret (Qmake (digits_value (ip ++ fp))
                      (Z.to_pos (10 ^ Z.of_nat (String.length fp))))
      else Raise
  end.

(** *** The two regular expressions *)

(** The maximal non-empty runs of characters satisfying [p], left to right;
    [cur] is the run being read, reversed. *)
Fixpoint runs_from (p : ascii -> bool) (cur : list ascii) (s : string)
  : list string :=
  match s with
  | EmptyString =>
      match cur with
      | [] => []
      | _ => [string_of_list_ascii (rev cur)]
      end
  | String c s' =>
      if p c then runs_from p (c :: cur) s'
      else match cur with
           | [] => runs_from p [] s'
           | _ => string_of_list_ascii (rev cur) :: runs_from p [] s'
           end
  end.

Definition runs (p : ascii -> bool) (s : string) : list string :=
  runs_from p [] s.

(** [re.findall(r'(\d{4,})', s)]: the digit runs of length four or more. *)
Definition findall_digits4 (s : string) : list string :=
  filter (fun r => (4 <=? String.length r)%nat) (runs is_digit s).

Definition is_num_char (c : ascii) : bool := is_digit c || Ascii.eqb c ".".

(** [re.findall(r"([0-9\.]+)", s)]: the runs of digits and dots. *)
Definition findall_number (s : string) : list string := runs is_num_char s.

End Py.

Local Open Scope Q_scope.

Definition Qltb (x y : Q) : bool := negb (Qle_bool y x).


(** A [try: ... except Exception: pass] block whose body either returns a
    value ([Some]) or runs to its end ([None]): an exception is swallowed and
    control continues after the block. *)
Definition try_ {A : Type} (body : exc (option A)) : option A :=
  match body with
  | Ret r => r
  | Raise => None
  end.

(** How a loop body ends: with a [return], or by going on to the next
    iteration with the loop variables updated. *)
Inductive step (A S : Type) : Type :=
| Return (a : A)
| Next (s : S).
Arguments Return {A S} a.
Arguments Next {A S} s.

(** ** The environment *)

(** What a path names: nothing, a readable file, something that exists but
    cannot be read or listed, or a directory with its entries in the order
    [os.listdir] reports them. *)
Inductive node : Type :=
| Missing
| File (content : string)
| Unreadable
| Dir (entries : list string).

(** How a child process ends: with an exit status and its decoded standard
    output, or not at all (not found, I/O or decoding error). *)
Inductive proc : Type :=
| Exited (status : Z) (out : string)
| SpawnError.

Record Env : Type := {
  release : exc string;          (* platform.release() *)
  system : string;               (* platform.system() *)
  argv : list string;            (* sys.argv *)
  fs : string -> node;
  spawn : list string -> proc
}.

Section Program.

Variable env : Env.

Definition path_exists (path : string) : bool :=
  match fs env path with
  | Missing => false
  | _ => true
  end.

Definition read_text (path : string) : exc string :=
  match fs env path with
  | File content => Ret content
  | _ => Raise
  end.

Definition listdir (path : string) : exc (list string) :=
  match fs env path with
  | Dir entries => Ret entries
  | _ => Raise
  end.

(** [subprocess.call(cmd)]: the exit status, or an exception. *)
Definition call (cmd_list : list string) : exc Z :=
  match spawn env cmd_list with
  | Exited status _ => Ret status
  | SpawnError => Raise
  end.

(** ** [is_wsl] *)
Definition is_wsl : bool :=
  match release env with
  | Ret r =>
      let release := Py.lower r in
      Py.contains "microsoft" release || Py.contains "wsl" release
  | Raise => false
  end.

(** ** [run_command] *)
Definition run_command (cmd_list : list string) (debug : bool) : option string :=
  match spawn env cmd_list with
  | Exited 0 out => Some (Py.strip out)
  | Exited _ _ => None            (* CalledProcessError *)
  | SpawnError => None
  end.

(** ** [get_windows_temp] *)

Definition ps_candidates : list string :=
  [ "powershell.exe";
    "/mnt/c/Windows/System32/WindowsPowerShell/v1.0/powershell.exe";
    "/mnt/c/Windows/System32/powershell.exe" ].

(** The candidate loop; when no candidate is found [ps_exe] keeps its
    initial value. *)
Fixpoint resolve_ps (candidates : list string) : string :=
  match candidates with
  | [] => "powershell.exe"
  | c :: rest =>
      if Py.startswith c "/" then
        if path_exists c then c else resolve_ps rest
      else
        match call ["which"; c] with
        | Ret 0%Z => c
        | _ => resolve_ps rest
        end
  end.

Definition cmd_wmi_object : string :=
  "Get-WmiObject MSAcpi_ThermalZoneTemperature -Namespace 'root/wmi' | Select-Object -ExpandProperty CurrentTemperature | Select-Object -First 1".

Definition cmd_cim_instance : string :=
  "Get-CimInstance -Namespace 'root/wmi' -ClassName MSAcpi_ThermalZoneTemperature | Select-Object -ExpandProperty CurrentTemperature | Select-Object -First 1".

Definition cmd_perf_counter : string :=
  "Get-CimInstance -ClassName Win32_PerfFormattedData_Counters_ThermalZoneInformation | Select-Object -ExpandProperty Temperature | Select-Object -First 1".

Definition cmd_ohm : string :=
  "Get-WmiObject -Namespace 'root/OpenHardwareMonitor' -Class Sensor | Where-Object { $_.SensorType -eq 'Temperature' -and $_.Name -like '*CPU*' } | Select-Object -ExpandProperty Value | Select-Object -First 1".

Definition commands : list string :=
  [cmd_wmi_object; cmd_cim_instance; cmd_perf_counter; cmd_ohm].

(** The magnitude heuristics applied to a plain-integer output. *)
Definition classify (val : Q) : option Q :=
  if Qltb 2500 val && Qltb val 4000 then Some (val / 10 - 273.15)
  else if Qltb 200 val && Qltb val 400 then Some (val - 273.15)
  else if Qltb 0 val && Qltb val 150 then Some val
  else None.

(** What one strategy does with the output of its query. *)
Definition handle_output (ps_cmd : string) (raw : option string)
  : exc (option Q) :=
  match raw with
  | Some r =>
      if Py.nonempty r then
        if Py.contains "OpenHardwareMonitor" ps_cmd
           && Py.isdigit (Py.remove_first_dot r)
        then v <- Py.float r ;; Ret (Some v)
        else if Py.isdigit r then val <- Py.float r ;; Ret (classify val)
        else Ret None
      else Ret None
  | None => Ret None
  end.

(** The body of the [try] of one strategy. *)
Definition strategy (ps_exe : string) (debug : bool) (ps_cmd : string)
  : exc (option Q) :=
  handle_output ps_cmd
    (run_command [ps_exe; "-NoProfile"; "-NonInteractive"; "-Command"; ps_cmd]
                 debug).

(** The strategy loop: [Some c] when a strategy returned [c]. *)
Fixpoint strategies (ps_exe : string) (debug : bool) (cmds : list string)
  : option Q :=
  match cmds with
  | [] => None
  | ps_cmd :: rest =>
      match try_ (strategy ps_exe debug ps_cmd) with
      | Some c => Some c
      | None => strategies ps_exe debug rest
      end
  end.

Definition wmic_mount : string := "/mnt/c/Windows/System32/wbem/wmic.exe".

(** The body of the [try] of the wmic fallback. *)
Definition wmic_fallback (debug is_wsl_mode : bool) : exc (option Q) :=
  let wmic_cmd :=
    if is_wsl_mode && path_exists wmic_mount then wmic_mount else "wmic.exe" in
  let raw_wmic :=
    run_command [wmic_cmd; "/namespace:\\root\wmi"; "PATH";
                 "MSAcpi_ThermalZoneTemperature"; "get"; "CurrentTemperature"]
                debug in
  match raw_wmic with
  | Some r =>
      if Py.nonempty r then
        match Py.findall_digits4 r with
        | m0 :: _ =>
            kelvin_deci <- Py.float m0 ;;
            if Qltb 2500 kelvin_deci && Qltb kelvin_deci 4000
            then Ret (Some (kelvin_deci / 10 - 273.15))
            else Ret None
        | [] => Ret None
        end
      else Ret None
  | None => Ret None
  end.

Definition get_windows_temp (debug is_wsl_mode : bool) : exc (option Q) :=
  let ps_exe :=
    if is_wsl_mode then resolve_ps ps_candidates else "powershell.exe" in
  match strategies ps_exe debug commands with
  | Some c => Ret (Some c)
  | None => Ret (try_ (wmic_fallback debug is_wsl_mode))
  end.

(** ** [get_linux_native_temp] *)

Definition base_path : string := "/sys/class/thermal".
Definition hwmon_base : string := "/sys/class/hwmon".

Definition preferred (z_type : string) : bool :=
  Py.contains "x86_pkg_temp" z_type || Py.contains "coretemp" z_type.

(** One iteration of the zone loop; the loop variable is [candidate]. *)
Definition zone_body (zone : string) (candidate : option Q)
  : exc (step Q (option Q)) :=
  let z_path := Py.join base_path zone in
  let t_path := Py.join z_path "type" in
  let temp_path := Py.join z_path "temp" in
  if path_exists t_path && path_exists temp_path then
    content <- read_text t_path ;;
    let z_type := Py.strip content in
    r <- (if preferred z_type then
            content <- read_text temp_path ;;
            let t_str := Py.strip content in
            if Py.isdigit t_str
            then v <- Py.float t_str ;; Ret (Return (v / 1000))
            else Ret (Next tt)
          else Ret (Next tt)) ;;
    match r with
    | Return v => Ret (Return v)
    | Next _ =>
        match candidate with
        | None =>
            content <- read_text temp_path ;;
            let t_str := Py.strip content in
            if Py.isdigit t_str then
              val <- Py.float t_str ;;
              if Qltb 0 val then Ret (Next (Some (val / 1000)))
              else Ret (Next None)
            else Ret (Next None)
        | Some _ => Ret (Next candidate)
        end
    end
  else Ret (Next candidate).

(** The zone loop followed by [if candidate is not None: return candidate]. *)
Fixpoint scan_zones (zones : list string) (candidate : option Q)
  : exc (option Q) :=
  match zones with
  | [] => Ret candidate
  | zone :: rest =>
      r <- zone_body zone candidate ;;
      match r with
      | Return v => Ret (Some v)
      | Next candidate' => scan_zones rest candidate'
      end
  end.

(** The body of the first [try]. *)
Definition thermal_scan : exc (option Q) :=
  entries <- listdir base_path ;;
  let zones := filter (fun f => Py.startswith f "thermal_zone") entries in
  scan_zones zones None.

(** The inner loop of the hwmon fallback, over the files of one device. *)
Fixpoint scan_files (h_path : string) (files : list string) : exc (option Q) :=
  match files with
  | [] => Ret None
  | f :: rest =>
      if Py.startswith f "temp" && Py.endswith f "_input" then
        content <- read_text (Py.join h_path f) ;;
        let t_str := Py.strip content in
        if Py.isdigit t_str then
          val <- Py.float t_str ;;
          let temp_c := val / 1000 in
          if Qltb 10 temp_c && Qltb temp_c 150 then Ret (Some temp_c)
          else scan_files h_path rest
        else scan_files h_path rest
      else scan_files h_path rest
  end.

(** The outer loop of the hwmon fallback, over the devices. *)
Fixpoint scan_devices (hws : list string) : exc (option Q) :=
  match hws with
  | [] => Ret None
  | hw :: rest =>
      let h_path := Py.join hwmon_base hw in
      files <- listdir h_path ;;
      r <- scan_files h_path files ;;
      match r with
      | Some temp_c => Ret (Some temp_c)
      | None => scan_devices rest
      end
  end.

(** The body of the second [try]. *)
Definition hwmon_scan : exc (option Q) :=
  if path_exists hwmon_base then
    hws <- listdir hwmon_base ;;
    scan_devices hws
  else Ret None.

Definition get_linux_native_temp : exc (option Q) :=
  if negb (path_exists base_path) then Ret None
  else
    match try_ thermal_scan with
    | Some t => Ret (Some t)
    | None => Ret (try_ hwmon_scan)
    end.

(** ** [get_macos_temp] *)
Definition get_macos_temp : exc (option Q) :=
  let cmd_out := run_command ["osx-cpu-temp"] false in
  match cmd_out with
  | Some out =>
      if Py.nonempty out then
        match Py.findall_number out with
        | m0 :: _ => v <- Py.float m0 ;; Ret (Some v)
        | [] => Ret None
        end
      else Ret None
  | None => Ret None
  end.

(** ** [main] *)

Definition Z_to_string (z : Z) : string :=
  NilZero.string_of_uint (N.to_uint (Z.to_N z)).

(** Rounds a non-negative rational to the nearest integer, a tie to the even
    one. *)
Definition round_half_even (x : Q) : Z :=
  let f := Qfloor x in
  let r := x - inject_Z f in
  if Qltb r (1 # 2) then f
  else if Qltb (1 # 2) r then (f + 1)%Z
  else if Z.even f then f else (f + 1)%Z.

(** [f"{temp:.1f}"], on the exact value: where binary64 rounding moves a
    value across a tie the last digit CPython prints can differ. *)
Definition format_1f (temp : Q) : string :=
  let tenths := round_half_even (Qabs temp * 10) in
  ((if Qltb temp 0 then "-" else "")
   ++ Z_to_string (tenths / 10) ++ "." ++ Z_to_string (tenths mod 10))%string.

(** A run of the program: the lines written to standard output and whether
    the run ended normally or with an uncaught exception. *)
Record run : Type := { stdout : list string; ending : exc unit }.

Definition select_probe (debug : bool) : exc (option Q) :=
  if is_wsl then get_windows_temp debug true
  else if String.eqb (system env) "Windows" then get_windows_temp debug false
  else if String.eqb (system env) "Linux" then get_linux_native_temp
  else if String.eqb (system env) "Darwin" then get_macos_temp
  else Ret None.

Definition main : run :=
  let debug := existsb (String.eqb "--debug") (argv env) in
  match select_probe debug with
  | Ret (Some temp) => {| stdout := [format_1f temp]; ending := Ret tt |}
  | Ret None => {| stdout := ["N/A"]; ending := Ret tt |}
  | Raise => {| stdout := []; ending := Raise |}
  end.

End Program.

(** * Vocabulary of the properties *)

(** The three queries that are not the open-hardware-monitor one. *)
Definition acpi_commands : list string :=
  [cmd_wmi_object; cmd_cim_instance; cmd_perf_counter].

(** The command line of one strategy. *)
Definition ps_invocation (ps_exe ps_cmd : string) : list string :=
  [ps_exe; "-NoProfile"; "-NonInteractive"; "-Command"; ps_cmd].

(** An environment in which every child process prints [out] and exits
    with status zero, on a machine of OS family [family]. *)
Definition env_printing (family out : string) : Env :=
  {| release := Ret "10.0.19045";
     system := family;
     argv := ["gravity_bridge.py"];
     fs := fun _ => Missing;
     spawn := fun _ => Exited 0 out |}.

(** [raw] is the decimal text of the integer [v]: a digit string, or a
    minus sign before one. *)
Definition integer_text (raw : string) (v : Z) : Prop :=
  (Py.isdigit raw = true /\ v = Py.digits_value raw)
  \/ (exists ds, raw = String "-" ds /\ Py.isdigit ds = true
                 /\ v = (- Py.digits_value ds)%Z).

(** The values outside the three magnitude windows. *)
Definition dead_zone (v : Z) : Prop :=
  (v <= 0 \/ 4000 <= v \/ 150 <= v <= 200 \/ 400 <= v <= 2500)%Z.

(** A plain number: a digit string, or digits around one dot with a digit
    on at least one side; and the value it denotes. *)
Inductive plain_number : string -> Q -> Prop :=
| plain_integer (s : string) :
    Py.isdigit s = true ->
    plain_number s (inject_Z (Py.digits_value s))
| plain_decimal (ip fp : string) :
    Py.all_digits ip = true -> Py.all_digits fp = true ->
    Py.nonempty ip || Py.nonempty fp = true ->
    plain_number (ip ++ "." ++ fp)
                 (Qmake (Py.digits_value (ip ++ fp))
                        (Z.to_pos (10 ^ Z.of_nat (String.length fp)))).

(** The interpreter the probe uses. *)
Definition resolved_ps (env : Env) (is_wsl_mode : bool) : string :=
  if is_wsl_mode then resolve_ps env ps_candidates else "powershell.exe".

(** The text [s] has a substring that is [pat] up to the case of its
    letters ([pat] is in lower case). *)
Definition contains_ignoring_case (pat s : string) : Prop :=
  exists pre mid post,
    s = (pre ++ mid ++ post)%string /\ Py.lower mid = pat.

(** A file system given by the list of its paths. *)
Definition fs_of (files : list (string * node)) (path : string) : node :=
  match find (fun kv => String.eqb (fst kv) path) files with
  | Some kv => snd kv
  | None => Missing
  end.

Definition linux_env (files : list (string * node)) : Env :=
  {| release := Ret "6.1.0-generic";
     system := "Linux";
     argv := ["gravity_bridge.py"];
     fs := fs_of files;
     spawn := fun _ => SpawnError |}.

Definition type_path (zone : string) : string :=
  Py.join (Py.join base_path zone) "type".

Definition temp_path (zone : string) : string :=
  Py.join (Py.join base_path zone) "temp".

(** The entry is absent or a file that can be read. *)
Definition readable (n : node) : bool :=
  match n with
  | Missing | File _ => true
  | Unreadable | Dir _ => false
  end.

(** Visiting the zone cannot raise. *)
Definition zone_ok (env : Env) (zone : string) : bool :=
  readable (fs env (type_path zone)) && readable (fs env (temp_path zone)).

(** The trimmed type label and raw temp of a zone that has both files. *)
Definition zone_texts (env : Env) (zone : string) : option (string * string) :=
  match fs env (type_path zone), fs env (temp_path zone) with
  | File ty, File tc => Some (Py.strip ty, Py.strip tc)
  | _, _ => None
  end.

(** A zone of a preferred type with a purely numeric raw temp. *)
Definition preferred_numeric (env : Env) (zone : string) : bool :=
  match zone_texts env zone with
  | Some (ty, tc) => preferred ty && Py.isdigit tc
  | None => false
  end.

(** A zone with a valid positive numeric reading. *)
Definition positive_numeric (env : Env) (zone : string) : bool :=
  match zone_texts env zone with
  | Some (_, tc) => Py.isdigit tc && (0 <? Py.digits_value tc)%Z
  | None => false
  end.

(** The raw temp of the zone divided by 1000. *)
Definition zone_celsius (env : Env) (zone : string) : Q :=
  match zone_texts env zone with
  | Some (_, tc) => inject_Z (Py.digits_value tc) / 1000
  | None => 0
  end.

Definition thermal_zones (entries : list string) : list string :=
  filter (fun f => Py.startswith f "thermal_zone") entries.

(** The candidate after a zone that is visited without a [return]. *)
Definition next_candidate (env : Env) (zone : string) (candidate : option Q)
  : option Q :=
  match candidate with
  | Some c => Some c
  | None =>
      if positive_numeric env zone then Some (zone_celsius env zone) else None
  end.

Definition passes (env : Env) (zone : string) : bool :=
  zone_ok env zone && negb (preferred_numeric env zone).

(** The zone files of the example of the specification, with the temp of
    the wireless zone given as [wifi_temp]. *)
Definition example_zones (order : list string) (wifi_temp : node)
  : list (string * node) :=
  [ (base_path, Dir order);
    (type_path "thermal_zone0", File "iwlwifi_1");
    (temp_path "thermal_zone0", wifi_temp);
    (type_path "thermal_zone1", File "coretemp");
    (temp_path "thermal_zone1", File "45000") ].

(** A file name of the form [temp*_input]. *)
Definition temp_input (f : string) : bool :=
  Py.startswith f "temp" && Py.endswith f "_input".

(** The file is read and skipped: it is not a [temp*_input] file, or its
    trimmed content is not numeric, or is numeric and outside the window. *)
Definition passed_over (env : Env) (h_path f : string) : Prop :=
  temp_input f = false
  \/ exists content,
       fs env (Py.join h_path f) = File content
       /\ (Py.isdigit (Py.strip content) = false
           \/ ~ (10 < inject_Z (Py.digits_value (Py.strip content)) / 1000
                 /\ inject_Z (Py.digits_value (Py.strip content)) / 1000 < 150)).

(** The file is a [temp*_input] file whose numeric content [v] is in the
    window. *)
Definition accepted (env : Env) (h_path f : string) (v : Z) : Prop :=
  temp_input f = true
  /\ exists content,
       fs env (Py.join h_path f) = File content
       /\ Py.isdigit (Py.strip content) = true
       /\ v = Py.digits_value (Py.strip content)
       /\ 10 < inject_Z v / 1000 /\ inject_Z v / 1000 < 150.

(** A machine with an empty thermal directory and one hwmon device holding
    the three readings of the specification. *)
Definition hwmon_example : list (string * node) :=
  [ (base_path, Dir []);
    (hwmon_base, Dir ["hwmon0"]);
    (Py.join hwmon_base "hwmon0",
     Dir ["name"; "temp1_input"; "temp2_input"; "temp3_input"]);
    (Py.join (Py.join hwmon_base "hwmon0") "name", File "k10temp");
    (Py.join (Py.join hwmon_base "hwmon0") "temp1_input", File "10000");
    (Py.join (Py.join hwmon_base "hwmon0") "temp2_input", File "150000");
    (Py.join (Py.join hwmon_base "hwmon0") "temp3_input", File "50000") ].

(** The reading went through one of the three magnitude windows of the
    unit classification. *)
Inductive window_checked (t : Q) : Prop :=
| checked_deci_kelvin (val : Q) :
    2500 < val -> val < 4000 -> t = val / 10 - 273.15 -> window_checked t
| checked_kelvin (val : Q) :
    200 < val -> val < 400 -> t = val - 273.15 -> window_checked t
| checked_celsius :
    0 < t -> t < 150 -> window_checked t.

(** The reading is the plain-number output of the open-hardware-monitor
    query, converted as it is. *)
Definition ohm_direct (env : Env) (debug is_wsl_mode : bool) (t : Q) : Prop :=
  exists raw,
    run_command env (ps_invocation (resolved_ps env is_wsl_mode) cmd_ohm) debug
    = Some raw
    /\ Py.isdigit (Py.remove_first_dot raw) = true
    /\ Py.float raw = Ret t.

(** The reading is the raw temp, divided by 1000, of a zone of a preferred
    type. *)
Definition preferred_reading (env : Env) (t : Q) : Prop :=
  exists zone, preferred_numeric env zone = true /\ t = zone_celsius env zone.

(** Every character of the text satisfies [p]. *)
Fixpoint string_forall (p : ascii -> bool) (s : string) : bool :=
  match s with
  | EmptyString => true
  | String c s' => p c && string_forall p s'
  end.

(** The command line of the wmic fallback. *)
Definition wmic_invocation (env : Env) (is_wsl_mode : bool) : list string :=
  [ (if is_wsl_mode && path_exists env wmic_mount then wmic_mount
     else "wmic.exe");
    "/namespace:\\root\wmi"; "PATH"; "MSAcpi_ThermalZoneTemperature"; "get";
    "CurrentTemperature" ].

(** * Properties *)

(** ** Comparisons and numbers *)

Lemma Qltb_lt (x y : Q) : Qltb x y = true <-> x < y.
Proof.
  unfold Qltb. rewrite negb_true_iff.
  split; intro H.
  - apply Qnot_le_lt. intro L. apply Qle_bool_iff in L. congruence.
  - destruct (Qle_bool y x) eqn:E; [|reflexivity].
    apply Qle_bool_iff in E. exfalso. apply (Qlt_not_le _ _ H E).
Qed.

Lemma Qltb_inject (a b : Z) : Qltb (inject_Z a) (inject_Z b) = (a <? b)%Z.
Proof.
  destruct (a <? b)%Z eqn:E.
  - apply Qltb_lt. rewrite <- Zlt_Qlt. now apply Z.ltb_lt.
  - destruct (Qltb (inject_Z a) (inject_Z b)) eqn:F; [|reflexivity].
    apply Qltb_lt in F. rewrite <- Zlt_Qlt in F.
    apply Z.ltb_lt in F. congruence.
Qed.

Lemma classify_inject (v : Z) :
  classify (inject_Z v) =
  if ((2500 <? v) && (v <? 4000))%Z then Some (inject_Z v / 10 - 273.15)
  else if ((200 <? v) && (v <? 400))%Z then Some (inject_Z v - 273.15)
  else if ((0 <? v) && (v <? 150))%Z then Some (inject_Z v)
  else None.
Proof.
  unfold classify.
  change 2500 with (inject_Z 2500). change 4000 with (inject_Z 4000).
  change 200 with (inject_Z 200). change 400 with (inject_Z 400).
  change 0 with (inject_Z 0). change 150 with (inject_Z 150).
  now rewrite !Qltb_inject.
Qed.

(** ** Strings *)

Lemma digit_not_dot (c : ascii) :
  Py.is_digit c = true -> Ascii.eqb c "." = false.
Proof.
  intro H. destruct (Ascii.eqb_spec c "."); [subst; discriminate|reflexivity].
Qed.

Lemma split_dot_digits (s : string) :
  Py.all_digits s = true -> Py.split_dot s = (s, None).
Proof.
  induction s as [|c s IH]; simpl; [reflexivity|].
  intro H. apply andb_prop in H. destruct H as [Hc Hs].
  rewrite (digit_not_dot c Hc), (IH Hs). reflexivity.
Qed.

Lemma float_isdigit (s : string) :
  Py.isdigit s = true -> Py.float s = Ret (inject_Z (Py.digits_value s)).
Proof.
  intro H. unfold Py.float.
  pose proof H as H'. unfold Py.isdigit in H'. apply andb_prop in H'.
  rewrite (split_dot_digits s (proj2 H')), H. reflexivity.
Qed.

Lemma isdigit_remove_first_dot (s : string) :
  Py.isdigit s = true -> Py.remove_first_dot s = s.
Proof.
  unfold Py.isdigit. intro H. apply andb_prop in H. destruct H as [_ H].
  induction s as [|c s IH]; simpl in *; [reflexivity|].
  apply andb_prop in H. destruct H as [Hc Hs].
  rewrite (digit_not_dot c Hc), (IH Hs). reflexivity.
Qed.

Lemma split_dot_app (ip fp : string) :
  Py.all_digits ip = true ->
  Py.split_dot (ip ++ "." ++ fp) = (ip, Some fp).
Proof.
  induction ip as [|c ip IH]; simpl; [reflexivity|].
  intro H. apply andb_prop in H. destruct H as [Hc Hs].
  rewrite (digit_not_dot c Hc).
  change (String "." fp) with ("." ++ fp)%string. rewrite (IH Hs). reflexivity.
Qed.

Lemma remove_first_dot_app (ip fp : string) :
  Py.all_digits ip = true ->
  Py.remove_first_dot (ip ++ "." ++ fp) = (ip ++ fp)%string.
Proof.
  induction ip as [|c ip IH]; simpl; [reflexivity|].
  intro H. apply andb_prop in H. destruct H as [Hc Hs].
  rewrite (digit_not_dot c Hc).
  change (String "." fp) with ("." ++ fp)%string. rewrite (IH Hs). reflexivity.
Qed.

Lemma all_digits_app (a b : string) :
  Py.all_digits (a ++ b) = Py.all_digits a && Py.all_digits b.
Proof.
  induction a as [|c a IH]; simpl; [reflexivity|].
  now rewrite IH, andb_assoc.
Qed.

Lemma nonempty_app (a b : string) :
  Py.nonempty (a ++ b) = Py.nonempty a || Py.nonempty b.
Proof. destruct a; reflexivity. Qed.

(** ** The Windows / WSL probe *)

Lemma acpi_command_not_ohm (ps_cmd : string) :
  In ps_cmd acpi_commands -> Py.contains "OpenHardwareMonitor" ps_cmd = false.
Proof.
  intros [H|[H|[H|[]]]]; subst; vm_compute; reflexivity.
Qed.

Lemma cmd_ohm_is_ohm : Py.contains "OpenHardwareMonitor" cmd_ohm = true.
Proof. vm_compute. reflexivity. Qed.

Lemma handle_output_acpi_digits (ps_cmd raw : string) :
  In ps_cmd acpi_commands -> Py.isdigit raw = true ->
  handle_output ps_cmd (Some raw)
  = Ret (classify (inject_Z (Py.digits_value raw))).
Proof.
  intros Hc Hd. unfold handle_output.
  rewrite (acpi_command_not_ohm _ Hc). simpl.
  pose proof Hd as Hn. unfold Py.isdigit in Hn. apply andb_prop in Hn.
  rewrite (proj1 Hn), Hd, (float_isdigit _ Hd). reflexivity.
Qed.

Lemma strategies_skip (env : Env) (ps_exe : string) (debug : bool)
      (ps_cmd : string) (rest : list string) :
  try_ (strategy env ps_exe debug ps_cmd) = None ->
  strategies env ps_exe debug (ps_cmd :: rest) = strategies env ps_exe debug rest.
Proof. intro H. simpl. now rewrite H. Qed.

(** C4. In the plain-integer classification of the Windows/WSL probe (the
    three queries other than the open-hardware-monitor one), an output that
    is the decimal text of [v] yields [v/10 - 273.15] when [2500 < v < 4000],
    [v - 273.15] when [200 < v < 400], and [v] itself when [0 < v < 150]. *)
Theorem plain_integer_classification
        (env : Env) (ps_exe : string) (debug : bool) (ps_cmd raw : string)
        (v : Z) :
  In ps_cmd acpi_commands ->
  run_command env (ps_invocation ps_exe ps_cmd) debug = Some raw ->
  Py.isdigit raw = true ->
  v = Py.digits_value raw ->
  ((2500 < v < 4000)%Z ->
     strategy env ps_exe debug ps_cmd = Ret (Some (inject_Z v / 10 - 273.15)))
  /\ ((200 < v < 400)%Z ->
     strategy env ps_exe debug ps_cmd = Ret (Some (inject_Z v - 273.15)))
  /\ ((0 < v < 150)%Z ->
     strategy env ps_exe debug ps_cmd = Ret (Some (inject_Z v))).
Proof.
  intros Hc Hr Hd ->. unfold strategy. fold (ps_invocation ps_exe ps_cmd).
  rewrite Hr, (handle_output_acpi_digits _ _ Hc Hd), classify_inject.
  repeat split; intro Hv.
  - replace ((2500 <? _) && _)%Z with true; [reflexivity|].
    symmetry. apply andb_true_iff. split; apply Z.ltb_lt; lia.
  - replace ((2500 <? _) && _)%Z with false.
    + replace ((200 <? _) && _)%Z with true; [reflexivity|].
      symmetry. apply andb_true_iff. split; apply Z.ltb_lt; lia.
    + symmetry. apply andb_false_iff. left. apply Z.ltb_ge. lia.
  - replace ((2500 <? _) && _)%Z with false.
    + replace ((200 <? _) && _)%Z with false.
      * replace ((0 <? _) && _)%Z with true; [reflexivity|].
        symmetry. apply andb_true_iff. split; apply Z.ltb_lt; lia.
      * symmetry. apply andb_false_iff. left. apply Z.ltb_ge. lia.
    + symmetry. apply andb_false_iff. left. apply Z.ltb_ge. lia.
Qed.

Lemma plain_integer_classification_witness :
  strategy (env_printing "Windows" "3032") "powershell.exe" false cmd_wmi_object
  = Ret (Some (inject_Z 3032 / 10 - 273.15))
  /\ inject_Z 3032 / 10 - 273.15 == 30.05.
Proof.
  split; [|reflexivity].
  refine (proj1 (plain_integer_classification
                   (env_printing "Windows" "3032") "powershell.exe" false
                   cmd_wmi_object "3032" 3032 _ _ _ _) _).
  - left; reflexivity.
  - reflexivity.
  - reflexivity.
  - reflexivity.
  - lia.
Defined.

Lemma classify_dead_zone (v : Z) :
  dead_zone v -> classify (inject_Z v) = None.
Proof.
  intro H. rewrite classify_inject. unfold dead_zone in H.
  destruct (2500 <? v)%Z eqn:E1, (v <? 4000)%Z eqn:E2,
           (200 <? v)%Z eqn:E3, (v <? 400)%Z eqn:E4,
           (0 <? v)%Z eqn:E5, (v <? 150)%Z eqn:E6; simpl; try reflexivity;
    exfalso;
    repeat match goal with
           | E : (_ <? _)%Z = true |- _ => apply Z.ltb_lt in E
           | E : (_ <? _)%Z = false |- _ => apply Z.ltb_ge in E
           end; lia.
Qed.

Lemma handle_output_minus (ps_cmd ds : string) :
  handle_output ps_cmd (Some (String "-" ds)) = Ret None.
Proof.
  unfold handle_output. simpl.
  destruct (Py.contains "OpenHardwareMonitor" ps_cmd); reflexivity.
Qed.

Lemma isdigit_nonempty (s : string) :
  Py.isdigit s = true -> Py.nonempty s = true.
Proof. unfold Py.isdigit. intro H. now apply andb_prop in H. Qed.

Lemma handle_output_ohm_digits (raw : string) :
  Py.isdigit raw = true ->
  handle_output cmd_ohm (Some raw) = Ret (Some (inject_Z (Py.digits_value raw))).
Proof.
  intro Hd. unfold handle_output.
  rewrite (isdigit_nonempty _ Hd), cmd_ohm_is_ohm,
    (isdigit_remove_first_dot _ Hd), Hd, (float_isdigit _ Hd).
  reflexivity.
Qed.

(** C5, as stated, fails on the open-hardware-monitor strategy: when every
    query prints 5000, a value in the dead zone, that strategy returns it. *)
Lemma ohm_returns_dead_zone_value :
  ~ (forall ps_cmd raw v,
        In ps_cmd commands ->
        run_command (env_printing "Windows" "5000")
                    (ps_invocation "powershell.exe" ps_cmd) false = Some raw ->
        integer_text raw v -> dead_zone v ->
        strategy (env_printing "Windows" "5000") "powershell.exe" false ps_cmd
        = Ret None)
  /\ get_windows_temp (env_printing "Windows" "5000") false false
     = Ret (Some (inject_Z 5000)).
Proof.
  split; [|reflexivity].
  intro H.
  specialize (H cmd_ohm "5000" 5000%Z).
  assert (In cmd_ohm commands) as Hin by (right; right; right; left; reflexivity).
  specialize (H Hin eq_refl).
  assert (integer_text "5000" 5000) as Ht by (left; split; reflexivity).
  assert (dead_zone 5000) as Hz by (unfold dead_zone; lia).
  specialize (H Ht Hz). discriminate H.
Qed.

(** C5 (amended). For the three queries other than the open-hardware-monitor
    one, an output that is the decimal text of an integer [v] with [v <= 0],
    [v >= 4000], [150 <= v <= 200] or [400 <= v <= 2500] gives no reading and
    the loop goes on to the next strategy; so does a negative integer under
    any query.  The open-hardware-monitor strategy returns such a digit
    string directly as Celsius. *)
Theorem dead_zone_rejected
        (env : Env) (ps_exe : string) (debug : bool) (ps_cmd raw : string)
        (v : Z) (rest : list string) :
  run_command env (ps_invocation ps_exe ps_cmd) debug = Some raw ->
  integer_text raw v ->
  dead_zone v ->
  (In ps_cmd acpi_commands \/ Py.isdigit raw = false ->
     strategy env ps_exe debug ps_cmd = Ret None
     /\ strategies env ps_exe debug (ps_cmd :: rest)
        = strategies env ps_exe debug rest)
  /\ (ps_cmd = cmd_ohm -> Py.isdigit raw = true ->
      strategy env ps_exe debug ps_cmd = Ret (Some (inject_Z v))).
Proof.
  intros Hr Ht Hz.
  split.
  - intro Hc.
    cut (strategy env ps_exe debug ps_cmd = Ret None).
    { intro E. split; [exact E|]. apply strategies_skip. now rewrite E. }
    unfold strategy. fold (ps_invocation ps_exe ps_cmd). rewrite Hr.
    destruct Ht as [[Hd ->]|[ds [-> _]]].
    + destruct Hc as [Hc|Hc]; [|congruence].
      rewrite (handle_output_acpi_digits _ _ Hc Hd).
      now rewrite (classify_dead_zone _ Hz).
    + apply handle_output_minus.
  - intros -> Hd.
    unfold strategy. fold (ps_invocation ps_exe cmd_ohm). rewrite Hr.
    destruct Ht as [[_ ->]|[ds [-> _]]].
    + now apply handle_output_ohm_digits.
    + discriminate Hd.
Qed.

Lemma dead_zone_rejected_witness :
  strategy (env_printing "Windows" "5000") "powershell.exe" false cmd_wmi_object
  = Ret None
  /\ strategies (env_printing "Windows" "5000") "powershell.exe" false
                (cmd_wmi_object :: [cmd_cim_instance])
     = strategies (env_printing "Windows" "5000") "powershell.exe" false
                  [cmd_cim_instance].
Proof.
  refine (proj1 (dead_zone_rejected
                   (env_printing "Windows" "5000") "powershell.exe" false
                   cmd_wmi_object "5000" 5000 [cmd_cim_instance] _ _ _) _).
  - reflexivity.
  - left. split; reflexivity.
  - unfold dead_zone. right. left. discriminate.
  - left. left. reflexivity.
Defined.

Lemma plain_number_float (raw : string) (q : Q) :
  plain_number raw q ->
  Py.nonempty raw = true
  /\ Py.isdigit (Py.remove_first_dot raw) = true
  /\ Py.float raw = Ret q.
Proof.
  intros [s Hd|ip fp Hi Hf Hn].
  - repeat split.
    + now apply isdigit_nonempty.
    + now rewrite (isdigit_remove_first_dot _ Hd).
    + now apply float_isdigit.
  - repeat split.
    + rewrite nonempty_app. simpl. apply orb_true_r.
    + rewrite (remove_first_dot_app _ _ Hi). unfold Py.isdigit.
      rewrite nonempty_app, all_digits_app, Hn, Hi, Hf. reflexivity.
    + unfold Py.float. rewrite (split_dot_app _ _ Hi), Hi, Hf, Hn. reflexivity.
Qed.

Lemma decimal_not_isdigit (ip fp : string) :
  Py.isdigit (ip ++ "." ++ fp) = false.
Proof.
  unfold Py.isdigit. rewrite all_digits_app. simpl.
  rewrite andb_false_r. apply andb_false_r.
Qed.

Lemma strategies_app (env : Env) (ps_exe : string) (debug : bool)
      (a b : list string) :
  strategies env ps_exe debug (a ++ b) =
  match strategies env ps_exe debug a with
  | Some c => Some c
  | None => strategies env ps_exe debug b
  end.
Proof.
  induction a as [|x a IH]; simpl; [reflexivity|].
  destruct (try_ (strategy env ps_exe debug x)); [reflexivity|exact IH].
Qed.

(** C9. Under the open-hardware-monitor query an output that is a plain
    number, decimal or integer, is returned as it is, with no conversion:
    by the strategy, and by the probe when the three earlier strategies gave
    nothing.  Under the three other queries a text with a dot is not a plain
    integer and gives no reading. *)
Theorem ohm_number_returned_directly
        (env : Env) (debug is_wsl_mode : bool) (raw : string) (q : Q) :
  plain_number raw q ->
  run_command env (ps_invocation (resolved_ps env is_wsl_mode) cmd_ohm) debug
  = Some raw ->
  strategy env (resolved_ps env is_wsl_mode) debug cmd_ohm = Ret (Some q)
  /\ (strategies env (resolved_ps env is_wsl_mode) debug acpi_commands = None ->
      get_windows_temp env debug is_wsl_mode = Ret (Some q))
  /\ (forall ps_cmd ip fp,
         In ps_cmd acpi_commands -> raw = (ip ++ "." ++ fp)%string ->
         handle_output ps_cmd (Some raw) = Ret None).
Proof.
  intros Hp Hr.
  destruct (plain_number_float _ _ Hp) as (Hn & Hd & Hf).
  assert (strategy env (resolved_ps env is_wsl_mode) debug cmd_ohm
          = Ret (Some q)) as Hs.
  { unfold strategy. fold (ps_invocation (resolved_ps env is_wsl_mode) cmd_ohm).
    rewrite Hr. unfold handle_output.
    rewrite Hn, cmd_ohm_is_ohm, Hd, Hf. reflexivity. }
  split; [exact Hs|split].
  - intro Hnone. unfold get_windows_temp. fold (resolved_ps env is_wsl_mode).
    change commands with (acpi_commands ++ [cmd_ohm])%list.
    rewrite strategies_app, Hnone. simpl. rewrite Hs. reflexivity.
  - intros ps_cmd ip fp Hc ->. unfold handle_output.
    rewrite (acpi_command_not_ohm _ Hc), decimal_not_isdigit.
    simpl. destruct (Py.nonempty _); reflexivity.
Qed.

Lemma ohm_number_returned_directly_witness :
  get_windows_temp (env_printing "Windows" "55.5") false false
  = Ret (Some (555 # 10))
  /\ 555 # 10 == 55.5.
Proof.
  split; [|reflexivity].
  refine (proj1 (proj2 (ohm_number_returned_directly
                          (env_printing "Windows" "55.5") false false
                          "55.5" (555 # 10) _ _)) _).
  - exact (plain_decimal "55" "5" eq_refl eq_refl eq_refl).
  - reflexivity.
  - reflexivity.
Defined.

(** C10. When a query succeeds with an output that is empty once trimmed,
    the runner returns the empty string, not the absent marker; the strategy
    gives no reading whatever its query, and the loop goes on to the next
    strategy. *)
Theorem empty_output_is_no_result
        (env : Env) (ps_exe : string) (debug : bool) (ps_cmd out : string)
        (rest : list string) :
  spawn env (ps_invocation ps_exe ps_cmd) = Exited 0 out ->
  Py.strip out = "" ->
  run_command env (ps_invocation ps_exe ps_cmd) debug = Some ""
  /\ handle_output ps_cmd (Some "") = Ret None
  /\ strategy env ps_exe debug ps_cmd = Ret None
  /\ strategies env ps_exe debug (ps_cmd :: rest)
     = strategies env ps_exe debug rest.
Proof.
  intros Hs He.
  assert (run_command env (ps_invocation ps_exe ps_cmd) debug = Some "") as Hr.
  { unfold run_command. rewrite Hs, He. reflexivity. }
  assert (strategy env ps_exe debug ps_cmd = Ret None) as Hn.
  { unfold strategy. fold (ps_invocation ps_exe ps_cmd). now rewrite Hr. }
  repeat split; try assumption.
  apply strategies_skip. now rewrite Hn.
Qed.

Lemma empty_output_is_no_result_witness :
  run_command (env_printing "Windows" "  ")
              (ps_invocation "powershell.exe" cmd_ohm) false = Some ""
  /\ handle_output cmd_ohm (Some "") = Ret None
  /\ strategy (env_printing "Windows" "  ") "powershell.exe" false cmd_ohm
     = Ret None
  /\ strategies (env_printing "Windows" "  ") "powershell.exe" false
                (cmd_ohm :: [])
     = strategies (env_printing "Windows" "  ") "powershell.exe" false [].
Proof.
  apply (empty_output_is_no_result
           (env_printing "Windows" "  ") "powershell.exe" false cmd_ohm "  " []);
    reflexivity.
Defined.

(** ** The WSL detector *)

Lemma prefix_iff (p s : string) :
  String.prefix p s = true <-> exists post, s = (p ++ post)%string.
Proof.
  revert s. induction p as [|a p IH]; intro s.
  - split; [intros _; now exists s|intros _; destruct s; reflexivity].
  - destruct s as [|b s]; simpl.
    + split; [discriminate|intros [post H]; discriminate].
    + destruct (ascii_dec a b) as [->|Hab].
      * rewrite IH. split; intros [post H]; exists post; congruence.
      * split; [discriminate|].
        intros [post H]. congruence.
Qed.

Lemma contains_iff (sub s : string) :
  Py.contains sub s = true
  <-> exists pre post, s = (pre ++ sub ++ post)%string.
Proof.
  induction s as [|c s IH].
  - cbn [Py.contains]. rewrite orb_false_r, prefix_iff. split.
    + intros [post H]. now exists EmptyString, post.
    + intros (pre & post & H). destruct pre; [now exists post|discriminate].
  - cbn [Py.contains]. rewrite orb_true_iff, prefix_iff, IH. split.
    + intros [[post H]|(pre & post & H)].
      * now exists EmptyString, post.
      * exists (String c pre), post. simpl. now rewrite H.
    + intros (pre & post & H). destruct pre as [|d pre].
      * left. now exists post.
      * right. exists pre, post. simpl in H. congruence.
Qed.

Lemma lower_app (a b : string) :
  Py.lower (a ++ b) = (Py.lower a ++ Py.lower b)%string.
Proof. induction a as [|c a IH]; simpl; [reflexivity|now rewrite IH]. Qed.

Lemma lower_split (s a b : string) :
  Py.lower s = (a ++ b)%string ->
  exists a' b', s = (a' ++ b')%string /\ Py.lower a' = a /\ Py.lower b' = b.
Proof.
  revert s. induction a as [|c a IH]; intros s H.
  - exists EmptyString, s. auto.
  - destruct s as [|d s]; [discriminate|].
    simpl in H. injection H as Hc Hs.
    destruct (IH s Hs) as (a' & b' & -> & Ha & Hb).
    exists (String d a'), b'. simpl. rewrite Ha, Hc. auto.
Qed.

Lemma contains_lower_iff (pat s : string) :
  Py.contains pat (Py.lower s) = true <-> contains_ignoring_case pat s.
Proof.
  rewrite contains_iff. unfold contains_ignoring_case. split.
  - intros (pre & post & H).
    destruct (lower_split _ _ _ H) as (pre' & r & -> & _ & Hr).
    destruct (lower_split _ _ _ Hr) as (mid & post' & -> & Hm & _).
    now exists pre', mid, post'.
  - intros (pre & mid & post & -> & <-).
    exists (Py.lower pre), (Py.lower post). now rewrite !lower_app.
Qed.

(** C8. The detector reports WSL exactly when the kernel release string
    contains [microsoft] or [wsl] up to letter case; when the release string
    cannot be obtained it reports false, and it never raises (it is a total
    boolean function). *)
Theorem is_wsl_spec (env : Env) :
  (forall r, release env = Ret r ->
     (is_wsl env = true
      <-> contains_ignoring_case "microsoft" r
          \/ contains_ignoring_case "wsl" r))
  /\ (release env = Raise -> is_wsl env = false).
Proof.
  unfold is_wsl. split.
  - intros r ->. rewrite orb_true_iff, !contains_lower_iff. reflexivity.
  - intros ->. reflexivity.
Qed.

Lemma is_wsl_spec_witness :
  is_wsl (Build_Env (Ret "4.4.0-19041-Microsoft") "Linux" [] (fun _ => Missing)
                    (fun _ => SpawnError)) = true.
Proof.
  apply (proj1 (is_wsl_spec
                  (Build_Env (Ret "4.4.0-19041-Microsoft") "Linux" []
                             (fun _ => Missing) (fun _ => SpawnError)))
               "4.4.0-19041-Microsoft" eq_refl).
  left. exists "4.4.0-19041-", "Microsoft", "". split; reflexivity.
Defined.

(** ** The Linux probe: thermal zones *)

Lemma Qltb_0_inject (v : Z) : Qltb 0 (inject_Z v) = (0 <? v)%Z.
Proof. change 0 with (inject_Z 0). apply Qltb_inject. Qed.

Lemma zone_body_preferred (env : Env) (zone : string) (candidate : option Q) :
  preferred_numeric env zone = true ->
  zone_body env zone candidate = Ret (Return (zone_celsius env zone)).
Proof.
  unfold preferred_numeric, zone_celsius, zone_texts, zone_body,
    path_exists, read_text.
  fold (type_path zone). fold (temp_path zone).
  destruct (fs env (type_path zone)) as [|ty| |]; try discriminate;
    destruct (fs env (temp_path zone)) as [|tc| |]; try discriminate.
  intro H. apply andb_prop in H. destruct H as [Hp Hd]. simpl.
  rewrite Hp. simpl. rewrite Hd, (float_isdigit _ Hd). reflexivity.
Qed.

Lemma zone_body_pass (env : Env) (zone : string) (candidate : option Q) :
  zone_ok env zone = true ->
  preferred_numeric env zone = false ->
  zone_body env zone candidate = Ret (Next (next_candidate env zone candidate)).
Proof.
  unfold zone_ok, preferred_numeric, next_candidate, positive_numeric,
    zone_celsius, zone_texts, zone_body, path_exists, read_text.
  fold (type_path zone). fold (temp_path zone).
  destruct (fs env (type_path zone)) as [|ty| |]; try discriminate;
    destruct (fs env (temp_path zone)) as [|tc| |]; try discriminate;
    intros _ H; simpl; try (destruct candidate; reflexivity).
  destruct (preferred (Py.strip ty)); simpl in *.
  - rewrite H. simpl. destruct candidate; reflexivity.
  - destruct candidate; [reflexivity|]. simpl.
    destruct (Py.isdigit (Py.strip tc)) eqn:Hd; [|reflexivity].
    rewrite (float_isdigit _ Hd). simpl. rewrite Qltb_0_inject.
    destruct (0 <? _)%Z; reflexivity.
Qed.

Lemma passes_inv (env : Env) (zone : string) :
  passes env zone = true ->
  zone_ok env zone = true /\ preferred_numeric env zone = false.
Proof.
  unfold passes. intro H. apply andb_prop in H. destruct H as [H1 H2].
  split; [exact H1|]. now apply negb_true_iff.
Qed.

Lemma scan_zones_pass (env : Env) (pre rest : list string)
      (candidate : option Q) :
  forallb (passes env) pre = true ->
  scan_zones env (pre ++ rest) candidate
  = scan_zones env rest
      (fold_left (fun c z => next_candidate env z c) pre candidate).
Proof.
  revert candidate. induction pre as [|z pre IH]; intros candidate H.
  - reflexivity.
  - simpl in H. apply andb_prop in H. destruct H as [Hz Hpre].
    destruct (passes_inv _ _ Hz) as [Hok Hnp].
    simpl. rewrite (zone_body_pass _ _ _ Hok Hnp). simpl. now apply IH.
Qed.

Lemma fold_candidate_some (env : Env) (zones : list string) (c : Q) :
  fold_left (fun c z => next_candidate env z c) zones (Some c) = Some c.
Proof. induction zones as [|z zones IH]; simpl; [reflexivity|exact IH]. Qed.

Lemma fold_candidate_none (env : Env) (zones : list string) :
  forallb (fun z => negb (positive_numeric env z)) zones = true ->
  fold_left (fun c z => next_candidate env z c) zones None = None.
Proof.
  induction zones as [|z zones IH]; simpl; [reflexivity|].
  intro H. apply andb_prop in H. destruct H as [Hz Hr].
  apply negb_true_iff in Hz. rewrite Hz. now apply IH.
Qed.

Lemma linux_probe_thermal (env : Env) (entries : list string) (t : Q) :
  fs env base_path = Dir entries ->
  scan_zones env (thermal_zones entries) None = Ret (Some t) ->
  get_linux_native_temp env = Ret (Some t).
Proof.
  intros Hb Hs. unfold get_linux_native_temp, path_exists, thermal_scan, listdir.
  rewrite Hb. simpl. fold (thermal_zones entries). now rewrite Hs.
Qed.

(** C6, as stated, fails when a zone enumerated before the preferred one
    cannot be read: the read error ends the thermal-zone scan, and with no
    hwmon directory the probe returns nothing. *)
Lemma unreadable_zone_hides_preferred :
  ~ (forall env entries zone,
        fs env base_path = Dir entries ->
        In zone (thermal_zones entries) ->
        preferred_numeric env zone = true ->
        get_linux_native_temp env = Ret (Some (zone_celsius env zone)))
  /\ get_linux_native_temp
       (linux_env (example_zones ["thermal_zone0"; "thermal_zone1"] Unreadable))
     = Ret None.
Proof.
  split; [|reflexivity].
  intro H.
  specialize (H (linux_env (example_zones ["thermal_zone0"; "thermal_zone1"]
                                          Unreadable))
                ["thermal_zone0"; "thermal_zone1"] "thermal_zone1" eq_refl).
  assert (In "thermal_zone1" (thermal_zones ["thermal_zone0"; "thermal_zone1"]))
    as Hin by (right; left; reflexivity).
  specialize (H Hin eq_refl). discriminate H.
Qed.

(** C6 (amended). When the zones enumerated before the first zone of a
    preferred type with a purely numeric raw temp can all be visited without
    a read error, the probe returns that zone's raw temp divided by 1000,
    whatever zones, preferred or not, come before or after it.  When every
    zone can be visited without a read error and none is a preferred zone
    with a numeric raw temp, the probe returns the raw temp divided by 1000 of
    the first enumerated zone with a positive numeric reading. *)
Theorem linux_zone_priority
        (env : Env) (entries pre post : list string) (zone : string) :
  fs env base_path = Dir entries ->
  thermal_zones entries = (pre ++ zone :: post)%list ->
  forallb (passes env) pre = true ->
  (preferred_numeric env zone = true ->
   get_linux_native_temp env = Ret (Some (zone_celsius env zone)))
  /\ (passes env zone = true -> forallb (passes env) post = true ->
      forallb (fun z => negb (positive_numeric env z)) pre = true ->
      positive_numeric env zone = true ->
      get_linux_native_temp env = Ret (Some (zone_celsius env zone))).
Proof.
  intros Hb Hz Hpre. split.
  - intro Hp. apply (linux_probe_thermal _ _ _ Hb).
    rewrite Hz, (scan_zones_pass _ _ _ _ Hpre). simpl.
    now rewrite (zone_body_preferred _ _ _ Hp).
  - intros Hzone Hpost Hnone Hpos. apply (linux_probe_thermal _ _ _ Hb).
    rewrite Hz, (scan_zones_pass _ _ _ _ Hpre), (fold_candidate_none _ _ Hnone).
    destruct (passes_inv _ _ Hzone) as [Hok Hnp].
    simpl. rewrite (zone_body_pass _ _ _ Hok Hnp). simpl.
    rewrite Hpos.
    rewrite <- (app_nil_r post), (scan_zones_pass _ _ _ _ Hpost).
    now rewrite fold_candidate_some.
Qed.

Lemma linux_zone_priority_witness :
  get_linux_native_temp
    (linux_env (example_zones ["thermal_zone0"; "thermal_zone1"]
                              (File "35000")))
  = Ret (Some (inject_Z 45000 / 1000))
  /\ get_linux_native_temp
       (linux_env (example_zones ["thermal_zone1"; "thermal_zone0"]
                                 (File "35000")))
     = Ret (Some (inject_Z 45000 / 1000))
  /\ get_linux_native_temp
       (linux_env [ (base_path, Dir ["thermal_zone0"; "thermal_zone1"]);
                    (type_path "thermal_zone0", File "acpitz");
                    (temp_path "thermal_zone0", File "0");
                    (type_path "thermal_zone1", File "iwlwifi_1");
                    (temp_path "thermal_zone1", File "35000") ])
     = Ret (Some (inject_Z 35000 / 1000))
  /\ inject_Z 45000 / 1000 == 45.
Proof.
  split; [|split; [|split; [|reflexivity]]].
  - refine (proj1 (linux_zone_priority
                     (linux_env (example_zones ["thermal_zone0"; "thermal_zone1"]
                                               (File "35000")))
                     ["thermal_zone0"; "thermal_zone1"]
                     ["thermal_zone0"] [] "thermal_zone1" _ _ _) _);
      reflexivity.
  - refine (proj1 (linux_zone_priority
                     (linux_env (example_zones ["thermal_zone1"; "thermal_zone0"]
                                               (File "35000")))
                     ["thermal_zone1"; "thermal_zone0"]
                     [] ["thermal_zone0"] "thermal_zone1" _ _ _) _);
      reflexivity.
  - refine (proj2 (linux_zone_priority
                     (linux_env
                        [ (base_path, Dir ["thermal_zone0"; "thermal_zone1"]);
                          (type_path "thermal_zone0", File "acpitz");
                          (temp_path "thermal_zone0", File "0");
                          (type_path "thermal_zone1", File "iwlwifi_1");
                          (temp_path "thermal_zone1", File "35000") ])
                     ["thermal_zone0"; "thermal_zone1"]
                     ["thermal_zone0"] [] "thermal_zone1" _ _ _) _ _ _ _);
      reflexivity.
Defined.

(** ** The Linux probe: the hwmon fallback *)

Lemma window_test (x : Q) :
  Qltb 10 x && Qltb x 150 = true <-> 10 < x /\ x < 150.
Proof. rewrite andb_true_iff, !Qltb_lt. reflexivity. Qed.

Lemma window_milli (v : Z) :
  (10 < inject_Z v / 1000 /\ inject_Z v / 1000 < 150)
  <-> (10000 < v < 150000)%Z.
Proof.
  unfold Qlt, Qdiv, Qmult, Qinv, inject_Z. simpl. lia.
Qed.

Lemma scan_files_passed_over (env : Env) (h_path f : string)
      (rest : list string) :
  passed_over env h_path f ->
  scan_files env h_path (f :: rest) = scan_files env h_path rest.
Proof.
  intros [Hn|(content & Hf & Hc)]; simpl; fold (temp_input f).
  - now rewrite Hn.
  - destruct (temp_input f); [|reflexivity].
    unfold read_text. rewrite Hf. simpl.
    destruct (Py.isdigit (Py.strip content)) eqn:Hd.
    + destruct Hc as [Hc|Hc]; [discriminate|].
      rewrite (float_isdigit _ Hd). simpl.
      destruct (Qltb 10 _ && Qltb _ 150) eqn:Hw; [|reflexivity].
      apply window_test in Hw. contradiction.
    + reflexivity.
Qed.

Lemma scan_files_accepted (env : Env) (h_path f : string)
      (rest : list string) (v : Z) :
  accepted env h_path f v ->
  scan_files env h_path (f :: rest) = Ret (Some (inject_Z v / 1000)).
Proof.
  intros (Ht & content & Hf & Hd & -> & Hw). simpl. fold (temp_input f).
  rewrite Ht. unfold read_text. rewrite Hf. simpl.
  rewrite Hd, (float_isdigit _ Hd). simpl.
  apply window_test in Hw. now rewrite Hw.
Qed.

(** What the inner loop does with its first file. *)
Lemma scan_files_head (env : Env) (h_path f : string) (rest : list string) :
  (passed_over env h_path f
   /\ scan_files env h_path (f :: rest) = scan_files env h_path rest)
  \/ (exists v, accepted env h_path f v
                /\ scan_files env h_path (f :: rest)
                   = Ret (Some (inject_Z v / 1000)))
  \/ scan_files env h_path (f :: rest) = Raise.
Proof.
  destruct (temp_input f) eqn:Ht.
  - destruct (fs env (Py.join h_path f)) as [|content| |] eqn:Hf;
      try (right; right; simpl; fold (temp_input f); rewrite Ht;
           unfold read_text; rewrite Hf; reflexivity).
    destruct (Py.isdigit (Py.strip content)) eqn:Hd.
    + destruct (Qltb 10 (inject_Z (Py.digits_value (Py.strip content)) / 1000)
                && Qltb (inject_Z (Py.digits_value (Py.strip content)) / 1000)
                        150) eqn:Hw.
      * right. left. exists (Py.digits_value (Py.strip content)).
        assert (accepted env h_path f (Py.digits_value (Py.strip content))) as Ha.
        { split; [exact Ht|]. exists content.
          apply window_test in Hw. tauto. }
        split; [exact Ha|]. now apply scan_files_accepted.
      * left.
        assert (passed_over env h_path f) as Hp.
        { right. exists content. split; [exact Hf|]. right.
          intro Hc. apply window_test in Hc. congruence. }
        split; [exact Hp|]. now apply scan_files_passed_over.
    + left.
      assert (passed_over env h_path f) as Hp.
      { right. exists content. split; [exact Hf|]. now left. }
      split; [exact Hp|]. now apply scan_files_passed_over.
  - left.
    assert (passed_over env h_path f) as Hp by (now left).
    split; [exact Hp|]. now apply scan_files_passed_over.
Qed.

(** The inner loop returns a value exactly when it is the reading of the
    first file in the window, the files before it having been read and
    skipped. *)
Lemma scan_files_first (env : Env) (h_path : string) (files : list string)
      (t : Q) :
  scan_files env h_path files = Ret (Some t)
  <-> exists pre f post v,
        files = (pre ++ f :: post)%list
        /\ Forall (passed_over env h_path) pre
        /\ accepted env h_path f v
        /\ t = inject_Z v / 1000.
Proof.
  split.
  - induction files as [|f rest IH]; [discriminate|].
    intro H.
    destruct (scan_files_head env h_path f rest)
      as [[Hp E]|[(v & Ha & E)|E]]; rewrite E in H.
    + destruct (IH H) as (pre & g & post & v & -> & Hpre & Ha & Ht).
      exists (f :: pre), g, post, v.
      refine (conj eq_refl (conj _ (conj Ha Ht))). now constructor.
    + injection H as <-. exists [], f, rest, v.
      refine (conj eq_refl (conj _ (conj Ha eq_refl))). constructor.
    + discriminate.
  - intros (pre & f & post & v & -> & Hpre & Ha & ->).
    induction Hpre as [|g pre Hg Hpre IH].
    + now apply scan_files_accepted.
    + simpl app. now rewrite (scan_files_passed_over _ _ _ _ Hg).
Qed.

Lemma scan_files_window (env : Env) (h_path : string) (files : list string)
      (t : Q) :
  scan_files env h_path files = Ret (Some t) -> 10 < t /\ t < 150.
Proof.
  intro H. apply scan_files_first in H.
  destruct H as (pre & f & post & v & _ & _ & Ha & ->).
  destruct Ha as (_ & content & _ & _ & _ & Hw). exact Hw.
Qed.

Lemma scan_devices_window (env : Env) (hws : list string) (t : Q) :
  scan_devices env hws = Ret (Some t) -> 10 < t /\ t < 150.
Proof.
  induction hws as [|hw rest IH]; [discriminate|].
  simpl. destruct (listdir env (Py.join hwmon_base hw)) as [files|];
    [|discriminate].
  simpl. destruct (scan_files env (Py.join hwmon_base hw) files) as [[c|]|] eqn:E;
    simpl.
  - intro H. injection H as <-. apply (scan_files_window _ _ _ _ E).
  - exact IH.
  - discriminate.
Qed.

Lemma hwmon_scan_window (env : Env) (t : Q) :
  hwmon_scan env = Ret (Some t) -> 10 < t /\ t < 150.
Proof.
  unfold hwmon_scan. destruct (path_exists env hwmon_base); [|discriminate].
  destruct (listdir env hwmon_base) as [hws|]; [|discriminate].
  simpl. apply scan_devices_window.
Qed.

(** C7. In the hwmon fallback a value is returned only if it lies strictly
    between 10 and 150; it is the raw reading, divided by 1000, of the first
    [temp*_input] file whose reading is in that window, the files before it
    having been read and skipped.  A file reading exactly 10000 or 150000 is
    skipped and one reading 50000 is returned as 50. *)
Theorem hwmon_window
        (env : Env) (h_path : string) (files : list string) (t : Q) :
  (hwmon_scan env = Ret (Some t) -> 10 < t /\ t < 150)
  /\ (scan_files env h_path files = Ret (Some t)
      <-> exists pre f post v,
            files = (pre ++ f :: post)%list
            /\ Forall (passed_over env h_path) pre
            /\ accepted env h_path f v
            /\ t = inject_Z v / 1000)
  /\ (forall f rest content,
         temp_input f = true ->
         fs env (Py.join h_path f) = File content ->
         (Py.strip content = "10000" \/ Py.strip content = "150000" ->
          scan_files env h_path (f :: rest) = scan_files env h_path rest)
         /\ (Py.strip content = "50000" ->
             scan_files env h_path (f :: rest)
             = Ret (Some (inject_Z 50000 / 1000)))).
Proof.
  split; [apply hwmon_scan_window|]. split; [apply scan_files_first|].
  intros f rest content Ht Hf. split.
  - intro Hc. apply scan_files_passed_over. right. exists content.
    split; [exact Hf|]. right.
    destruct Hc as [-> | ->]; rewrite window_milli;
      change (Py.digits_value "10000") with 10000%Z;
      change (Py.digits_value "150000") with 150000%Z; lia.
  - intro Hc. apply scan_files_accepted. split; [exact Ht|].
    exists content. rewrite Hc.
    repeat split; try assumption; reflexivity.
Qed.

Lemma hwmon_window_witness :
  get_linux_native_temp (linux_env hwmon_example)
  = Ret (Some (inject_Z 50000 / 1000))
  /\ 10 < inject_Z 50000 / 1000 /\ inject_Z 50000 / 1000 < 150.
Proof.
  split; [reflexivity|].
  apply (proj1 (hwmon_window (linux_env hwmon_example) "" []
                             (inject_Z 50000 / 1000))).
  reflexivity.
Defined.

(** ** Which readings have passed a magnitude check *)

Lemma classify_checked (val t : Q) :
  classify val = Some t -> window_checked t.
Proof.
  unfold classify.
  destruct (Qltb 2500 val && Qltb val 4000) eqn:E1.
  - intro H. injection H as <-. apply andb_prop in E1. destruct E1 as [A B].
    apply Qltb_lt in A, B. now apply (checked_deci_kelvin _ val).
  - destruct (Qltb 200 val && Qltb val 400) eqn:E2.
    + intro H. injection H as <-. apply andb_prop in E2. destruct E2 as [A B].
      apply Qltb_lt in A, B. now apply (checked_kelvin _ val).
    + destruct (Qltb 0 val && Qltb val 150) eqn:E3; [|discriminate].
      intro H. injection H as <-. apply andb_prop in E3. destruct E3 as [A B].
      apply Qltb_lt in A, B. now apply checked_celsius.
Qed.

Lemma handle_output_checked (ps_cmd : string) (raw : option string) (t : Q) :
  handle_output ps_cmd raw = Ret (Some t) ->
  (Py.contains "OpenHardwareMonitor" ps_cmd = true
   /\ exists r, raw = Some r
                /\ Py.isdigit (Py.remove_first_dot r) = true
                /\ Py.float r = Ret t)
  \/ window_checked t.
Proof.
  unfold handle_output. destruct raw as [r|]; [|discriminate].
  destruct (Py.nonempty r); [|discriminate].
  destruct (Py.contains "OpenHardwareMonitor" ps_cmd) eqn:Ec;
    destruct (Py.isdigit (Py.remove_first_dot r)) eqn:Er; simpl.
  - destruct (Py.float r) as [v|] eqn:Ef; [|discriminate]. simpl.
    intro H. injection H as <-. left. split; [reflexivity|]. now exists r.
  - destruct (Py.isdigit r); [|discriminate].
    destruct (Py.float r) as [v|]; [|discriminate]. simpl.
    intro H. injection H as H. right. now apply (classify_checked v).
  - destruct (Py.isdigit r); [|discriminate].
    destruct (Py.float r) as [v|]; [|discriminate]. simpl.
    intro H. injection H as H. right. now apply (classify_checked v).
  - destruct (Py.isdigit r); [|discriminate].
    destruct (Py.float r) as [v|]; [|discriminate]. simpl.
    intro H. injection H as H. right. now apply (classify_checked v).
Qed.

Lemma try_some {A : Type} (body : exc (option A)) (a : A) :
  try_ body = Some a -> body = Ret (Some a).
Proof. destruct body as [[b|]|]; simpl; intro H; congruence. Qed.

Lemma strategy_acpi_checked (env : Env) (ps_exe : string) (debug : bool)
      (ps_cmd : string) (t : Q) :
  In ps_cmd acpi_commands ->
  try_ (strategy env ps_exe debug ps_cmd) = Some t -> window_checked t.
Proof.
  intros Hc H. apply try_some in H. unfold strategy in H.
  apply handle_output_checked in H. destruct H as [[Ho _]|H]; [|exact H].
  rewrite (acpi_command_not_ohm _ Hc) in Ho. discriminate.
Qed.

Lemma wmic_fallback_checked (env : Env) (debug is_wsl_mode : bool) (t : Q) :
  try_ (wmic_fallback env debug is_wsl_mode) = Some t -> window_checked t.
Proof.
  intro H. apply try_some in H. unfold wmic_fallback in H.
  destruct (run_command env _ debug) as [r|]; [|discriminate].
  destruct (Py.nonempty r); [|discriminate].
  destruct (Py.findall_digits4 r) as [|m0 ms]; [discriminate|].
  destruct (Py.float m0) as [kd|]; [|discriminate]. simpl in H.
  destruct (Qltb 2500 kd && Qltb kd 4000) eqn:E; [|discriminate].
  injection H as <-. apply andb_prop in E. destruct E as [A B].
  apply Qltb_lt in A, B. now apply (checked_deci_kelvin _ kd).
Qed.

Lemma windows_reading_checked (env : Env) (debug is_wsl_mode : bool) (t : Q) :
  get_windows_temp env debug is_wsl_mode = Ret (Some t) ->
  ohm_direct env debug is_wsl_mode t \/ window_checked t.
Proof.
  unfold get_windows_temp. fold (resolved_ps env is_wsl_mode).
  set (ps_exe := resolved_ps env is_wsl_mode).
  unfold commands. cbn [strategies].
  destruct (try_ (strategy env ps_exe debug cmd_wmi_object)) as [c|] eqn:E1.
  { intro H. injection H as <-. right.
    apply (strategy_acpi_checked _ _ _ cmd_wmi_object _ (or_introl eq_refl) E1). }
  destruct (try_ (strategy env ps_exe debug cmd_cim_instance)) as [c|] eqn:E2.
  { intro H. injection H as <-. right.
    apply (strategy_acpi_checked _ _ _ cmd_cim_instance _
             (or_intror (or_introl eq_refl)) E2). }
  destruct (try_ (strategy env ps_exe debug cmd_perf_counter)) as [c|] eqn:E3.
  { intro H. injection H as <-. right.
    apply (strategy_acpi_checked _ _ _ cmd_perf_counter _
             (or_intror (or_intror (or_introl eq_refl))) E3). }
  destruct (try_ (strategy env ps_exe debug cmd_ohm)) as [c|] eqn:E4.
  { intro H. injection H as <-. apply try_some in E4. unfold strategy in E4.
    apply handle_output_checked in E4.
    destruct E4 as [[_ (r & Hr & Hd & Hf)]|Hw]; [left|right; exact Hw].
    exists r. repeat split; assumption. }
  intro H. injection H as H. right. now apply (wmic_fallback_checked _ _ _ _ H).
Qed.

Lemma zone_celsius_positive (env : Env) (zone : string) :
  positive_numeric env zone = true -> 0 < zone_celsius env zone.
Proof.
  unfold positive_numeric, zone_celsius.
  destruct (zone_texts env zone) as [[ty tc]|]; [|discriminate].
  intro H. apply andb_prop in H. destruct H as [_ H]. apply Z.ltb_lt in H.
  unfold Qlt, Qdiv, Qmult, Qinv, inject_Z. simpl. lia.
Qed.

(** What one visit of the zone loop can do. *)
Lemma zone_body_inv (env : Env) (zone : string) (candidate : option Q)
      (r : step Q (option Q)) :
  zone_body env zone candidate = Ret r ->
  match r with
  | Return v => preferred_numeric env zone = true /\ v = zone_celsius env zone
  | Next c' =>
      c' = candidate
      \/ (candidate = None /\ positive_numeric env zone = true
          /\ c' = Some (zone_celsius env zone))
  end.
Proof.
  unfold preferred_numeric, positive_numeric, zone_celsius, zone_texts,
    zone_body, path_exists, read_text.
  fold (type_path zone). fold (temp_path zone).
  destruct (fs env (type_path zone)) as [|ty| |];
    destruct (fs env (temp_path zone)) as [|tc| |]; simpl;
    try discriminate;
    try (intro H; injection H as <-; now left).
  - destruct (preferred (Py.strip ty)); simpl.
    + destruct (Py.isdigit (Py.strip tc)) eqn:Hd.
      * rewrite (float_isdigit _ Hd). simpl. intro H. injection H as <-. auto.
      * simpl. destruct candidate; simpl; intro H; injection H as <-; now left.
    + destruct candidate; simpl; [intro H; injection H as <-; now left|].
      destruct (Py.isdigit (Py.strip tc)) eqn:Hd.
      * rewrite (float_isdigit _ Hd). simpl. rewrite Qltb_0_inject.
        destruct (0 <? _)%Z; intro H; injection H as <-; [right|left]; auto.
      * intro H. injection H as <-. now left.
  - destruct (preferred (Py.strip ty)); simpl; [discriminate|].
    destruct candidate; simpl; [|discriminate].
    intro H. injection H as <-. now left.
  - destruct (preferred (Py.strip ty)); simpl; [discriminate|].
    destruct candidate; simpl; [|discriminate].
    intro H. injection H as <-. now left.
Qed.

Lemma scan_zones_checked (env : Env) (zones : list string)
      (candidate : option Q) (t : Q) :
  (forall c, candidate = Some c -> 0 < c) ->
  scan_zones env zones candidate = Ret (Some t) ->
  preferred_reading env t \/ 0 < t.
Proof.
  revert candidate. induction zones as [|z zones IH]; intros candidate Hc.
  - simpl. intro H. injection H as H. right. now apply Hc.
  - simpl. destruct (zone_body env z candidate) as [r|] eqn:E; [|discriminate].
    apply zone_body_inv in E. simpl. destruct r as [v|c'].
    + intro H. injection H as <-. left. exists z. exact E.
    + apply IH. intros c Hc'. destruct E as [->|(_ & Hp & ->)].
      * now apply Hc.
      * injection Hc' as <-. now apply zone_celsius_positive.
Qed.

Lemma thermal_scan_checked (env : Env) (t : Q) :
  thermal_scan env = Ret (Some t) -> preferred_reading env t \/ 0 < t.
Proof.
  unfold thermal_scan. destruct (listdir env base_path); [|discriminate].
  simpl. apply scan_zones_checked. discriminate.
Qed.

(** C2, as stated, fails: a zone of a preferred type with raw temp 0 is
    returned as 0, a value the probe's own positivity check on the other
    zones rejects; and the macOS probe returns 1000000 when its tool prints
    that number. *)
Lemma preferred_zone_unchecked :
  ~ (forall env t, get_linux_native_temp env = Ret (Some t) -> 0 < t)
  /\ get_macos_temp (env_printing "Darwin" "1000000")
     = Ret (Some (inject_Z 1000000)).
Proof.
  split; [|reflexivity].
  intro H.
  specialize (H (linux_env [ (base_path, Dir ["thermal_zone0"]);
                             (type_path "thermal_zone0", File "x86_pkg_temp");
                             (temp_path "thermal_zone0", File "0") ])
                (inject_Z 0 / 1000) eq_refl).
  discriminate H.
Qed.

(** C2 (amended). A reading returned by the Windows/WSL probe is either the
    plain-number output of the open-hardware-monitor query, returned as it
    is, or has passed one of the magnitude windows of the unit
    classification.  A reading returned by the Linux probe is either the raw
    temp of a zone of a preferred type divided by 1000, or is positive; one
    that comes from the hwmon fallback lies strictly between 10 and 150. *)
Theorem readings_checked_or_direct
        (env : Env) (debug is_wsl_mode : bool) (t : Q) :
  (get_windows_temp env debug is_wsl_mode = Ret (Some t) ->
   ohm_direct env debug is_wsl_mode t \/ window_checked t)
  /\ (get_linux_native_temp env = Ret (Some t) ->
      preferred_reading env t \/ 0 < t)
  /\ (hwmon_scan env = Ret (Some t) -> 10 < t /\ t < 150).
Proof.
  split; [apply windows_reading_checked|].
  split; [|apply hwmon_scan_window].
  unfold get_linux_native_temp.
  destruct (path_exists env base_path); [|discriminate]. simpl.
  destruct (try_ (thermal_scan env)) as [c|] eqn:E.
  - intro H. injection H as <-. apply try_some in E.
    now apply thermal_scan_checked.
  - intro H. injection H as H. apply try_some in H.
    apply hwmon_scan_window in H. right.
    apply Qlt_trans with (y := 10); [reflexivity|tauto].
Qed.

Lemma readings_checked_or_direct_witness :
  window_checked (inject_Z 3032 / 10 - 273.15).
Proof.
  destruct (proj1 (readings_checked_or_direct
                     (env_printing "Windows" "3032") false false
                     (inject_Z 3032 / 10 - 273.15)) eq_refl)
    as [(raw & Hr & Hd & Hf)|Hw].
  - exfalso. injection Hr as <-. discriminate Hf.
  - exact Hw.
Defined.

(** ** Exceptions that reach the caller *)

Lemma get_windows_temp_total (env : Env) (debug is_wsl_mode : bool) :
  exists r, get_windows_temp env debug is_wsl_mode = Ret r.
Proof.
  unfold get_windows_temp.
  destruct (strategies env _ debug commands) as [c|]; eauto.
Qed.

Lemma get_linux_native_temp_total (env : Env) :
  exists r, get_linux_native_temp env = Ret r.
Proof.
  unfold get_linux_native_temp.
  destruct (negb (path_exists env base_path)); [eauto|].
  destruct (try_ (thermal_scan env)); eauto.
Qed.

(** The only exception that reaches [main] comes from the macOS probe. *)
Lemma select_probe_raise (env : Env) (debug : bool) :
  select_probe env debug = Raise ->
  is_wsl env = false /\ system env = "Darwin" /\ get_macos_temp env = Raise.
Proof.
  unfold select_probe.
  destruct (is_wsl env).
  { destruct (get_windows_temp_total env debug true) as [r ->]. discriminate. }
  destruct (String.eqb (system env) "Windows").
  { destruct (get_windows_temp_total env debug false) as [r ->]. discriminate. }
  destruct (String.eqb (system env) "Linux").
  { destruct (get_linux_native_temp_total env) as [r ->]. discriminate. }
  destruct (String.eqb_spec (system env) "Darwin") as [E|_]; [|discriminate].
  auto.
Qed.

(** C1. The claim holds of the Windows/WSL and Linux probes (see
    [get_windows_temp_total], [get_linux_native_temp_total]) and fails on
    macOS: when the temperature tool prints [1.2.3] the first token matched
    is not a number, the conversion raises, and nothing catches the
    exception before it leaves [main]. *)
Theorem macos_probe_raises_on_dotted_token :
  Py.findall_number "1.2.3" = ["1.2.3"]
  /\ Py.float "1.2.3" = Raise
  /\ get_macos_temp (env_printing "Darwin" "1.2.3") = Raise
  /\ ending (main (env_printing "Darwin" "1.2.3")) = Raise.
Proof. repeat split. Qed.

(** ** Standard output *)





(** A run that ends normally writes exactly one line: the reading with one
    fractional digit, or [N/A]. *)
Lemma main_output (env : Env) :
  ending (main env) = Ret tt ->
  stdout (main env) = ["N/A"]
  \/ exists temp, stdout (main env) = [format_1f temp].
Proof.
  unfold main. destruct (select_probe env _) as [[temp|]|]; simpl.
  - intros _. right. now exists temp.
  - intros _. now left.
  - discriminate.
Qed.

(** On an unsupported environment the output is [N/A]. *)
Lemma main_unsupported (env : Env) :
  is_wsl env = false ->
  system env <> "Windows" -> system env <> "Linux" -> system env <> "Darwin" ->
  main env = {| stdout := ["N/A"]; ending := Ret tt |}.
Proof.
  intros Hw H1 H2 H3. unfold main, select_probe. rewrite Hw.
  destruct (String.eqb_spec (system env) "Windows"); [contradiction|].
  destruct (String.eqb_spec (system env) "Linux"); [contradiction|].
  destruct (String.eqb_spec (system env) "Darwin"); [contradiction|].
  reflexivity.
Qed.

(** C3. The claim holds of every run that ends normally (see
    [main_output], [format_1f_shape], [main_unsupported]) and fails on the
    run in which the macOS probe raises: the exception leaves [main] before
    anything is printed, so standard output has no line at all. *)
Theorem main_prints_nothing_when_probe_raises :
  stdout (main (env_printing "Darwin" "1.2.3")) = []
  /\ ending (main (env_printing "Darwin" "1.2.3")) = Raise.
Proof. split; reflexivity. Qed.

(** * Further properties of the program *)

(** ** Trimming and the process runner *)

Lemma rstrip_idempotent (s : string) : Py.rstrip (Py.rstrip s) = Py.rstrip s.
Proof.
  induction s as [|c s IH]; [reflexivity|].
  simpl. destruct (Py.rstrip s) as [|d r] eqn:E.
  - destruct (Py.is_space c) eqn:Hc; [reflexivity|]. simpl. now rewrite Hc.
  - change (Py.rstrip (String c (String d r))) with
      (match Py.rstrip (String d r) with
       | EmptyString =>
           if Py.is_space c then EmptyString else String c EmptyString
       | String a r0 => String c (String a r0)
       end).
    now rewrite IH.
Qed.

Lemma lstrip_head (s : string) :
  Py.lstrip s = EmptyString
  \/ exists c r, Py.lstrip s = String c r /\ Py.is_space c = false.
Proof.
  induction s as [|c s IH]; [now left|].
  simpl. destruct (Py.is_space c) eqn:Hc; [exact IH|].
  right. now exists c, s.
Qed.

Lemma rstrip_head (c : ascii) (r : string) :
  Py.is_space c = false -> exists r', Py.rstrip (String c r) = String c r'.
Proof.
  intro Hc. simpl. destruct (Py.rstrip r) as [|d r'].
  - rewrite Hc. now exists EmptyString.
  - now exists (String d r').
Qed.

Lemma strip_idempotent (s : string) : Py.strip (Py.strip s) = Py.strip s.
Proof.
  unfold Py.strip.
  destruct (lstrip_head s) as [E|(c & r & E & Hc)]; rewrite E.
  - reflexivity.
  - destruct (rstrip_head c r Hc) as [r' E'].
    rewrite E'. simpl Py.lstrip. rewrite Hc. rewrite <- E'.
    apply rstrip_idempotent.
Qed.

(** X1. The runner gives a text only for a child that exited with status
    zero, and that text is the trimmed output: trimming it again changes
    nothing.  Every other ending of the child gives the absent marker. *)
Theorem run_command_trimmed
        (env : Env) (cmd_list : list string) (debug : bool) :
  (forall r, run_command env cmd_list debug = Some r ->
             Py.strip r = r
             /\ exists out, spawn env cmd_list = Exited 0 out
                            /\ r = Py.strip out)
  /\ (run_command env cmd_list debug = None
      <-> forall out, spawn env cmd_list <> Exited 0 out).
Proof.
  unfold run_command. destruct (spawn env cmd_list) as [status out|].
  - destruct status as [|p|p]; split.
    + intros r H. injection H as <-. split; [apply strip_idempotent|].
      now exists out.
    + split; [discriminate|]. intro H. now destruct (H out).
    + discriminate.
    + split; [intros _ o; discriminate|reflexivity].
    + discriminate.
    + split; [intros _ o; discriminate|reflexivity].
  - split; [discriminate|]. split; [intros _ o; discriminate|reflexivity].
Qed.

Lemma run_command_trimmed_witness :
  Py.strip "3032" = "3032"
  /\ exists out,
       spawn (env_printing "Windows" "  3032
") ["wmic.exe"] = Exited 0 out
       /\ "3032" = Py.strip out.
Proof.
  apply (proj1 (run_command_trimmed (env_printing "Windows" "  3032
") ["wmic.exe"] false) "3032").
  reflexivity.
Defined.

(** ** Numbers and conversions *)

Lemma digit_value_range (c : ascii) :
  Py.is_digit c = true -> (0 <= Py.digit_value c <= 9)%Z.
Proof.
  unfold Py.is_digit, Py.digit_value. intro H. apply andb_prop in H.
  destruct H as [A B]. apply Nat.leb_le in A, B. lia.
Qed.

Lemma digits_value_from_nonneg (s : string) (acc : Z) :
  Py.all_digits s = true -> (0 <= acc)%Z ->
  (0 <= Py.digits_value_from acc s)%Z.
Proof.
  revert acc. induction s as [|c s IH]; intros acc Hs Ha; [exact Ha|].
  cbn [Py.digits_value_from Py.all_digits] in *.
  apply andb_prop in Hs. destruct Hs as [Hc Hs].
  apply IH; [exact Hs|]. pose proof (digit_value_range c Hc). lia.
Qed.

Lemma digits_value_nonneg (s : string) :
  Py.all_digits s = true -> (0 <= Py.digits_value s)%Z.
Proof. intro H. apply digits_value_from_nonneg; [exact H|lia]. Qed.

Lemma isdigit_all_digits (s : string) :
  Py.isdigit s = true -> Py.all_digits s = true.
Proof. unfold Py.isdigit. intro H. now apply andb_prop in H. Qed.

(** How a text splits at its first dot. *)
Lemma split_dot_shape (s : string) :
  match Py.split_dot s with
  | (ip, None) => s = ip /\ Py.remove_first_dot s = s
  | (ip, Some fp) =>
      s = (ip ++ "." ++ fp)%string /\ Py.remove_first_dot s = (ip ++ fp)%string
  end.
Proof.
  induction s as [|c s IH]; simpl; [auto|].
  destruct (Ascii.eqb_spec c ".") as [->|Hc]; [auto|].
  destruct (Py.split_dot s) as [ip [fp|]]; destruct IH as [E1 E2];
    simpl in *; split; congruence.
Qed.

(** The guard [raw.replace('.', '', 1).isdigit()] is exactly the condition
    under which the conversion succeeds. *)
Lemma float_ok_iff (s : string) :
  (exists q, Py.float s = Ret q) <-> Py.isdigit (Py.remove_first_dot s) = true.
Proof.
  unfold Py.float. pose proof (split_dot_shape s) as H.
  destruct (Py.split_dot s) as [ip [fp|]]; destruct H as [E1 E2]; rewrite E2.
  - unfold Py.isdigit. rewrite nonempty_app, all_digits_app.
    destruct (Py.all_digits ip), (Py.all_digits fp),
      (Py.nonempty ip), (Py.nonempty fp); simpl;
      split; try discriminate; try (intros [q Hq]; discriminate); eauto.
  - subst ip. destruct (Py.isdigit s);
      split; try discriminate; try (intros [q Hq]; discriminate); eauto.
Qed.

Lemma guard_plain_number (s : string) :
  Py.isdigit (Py.remove_first_dot s) = true -> exists q, plain_number s q.
Proof.
  pose proof (split_dot_shape s) as H.
  destruct (Py.split_dot s) as [ip [fp|]]; destruct H as [E1 E2]; rewrite E2.
  - unfold Py.isdigit. rewrite nonempty_app, all_digits_app. intro H.
    apply andb_prop in H. destruct H as [Hn Hd].
    apply andb_prop in Hd. destruct Hd as [Hi Hf].
    rewrite E1. eexists. now apply plain_decimal.
  - intro H. eexists. now apply plain_integer.
Qed.

Lemma plain_number_nonneg (s : string) (q : Q) : plain_number s q -> 0 <= q.
Proof.
  intros [r Hd|ip fp Hi Hf Hn].
  - change 0 with (inject_Z 0). rewrite <- Zle_Qle.
    apply digits_value_nonneg. now apply isdigit_all_digits.
  - unfold Qle. simpl. rewrite Z.mul_1_r.
    apply digits_value_nonneg. now rewrite all_digits_app, Hi, Hf.
Qed.

Lemma float_guarded (s : string) :
  Py.isdigit (Py.remove_first_dot s) = true ->
  exists q, Py.float s = Ret q /\ plain_number s q /\ 0 <= q.
Proof.
  intro H. destruct (guard_plain_number s H) as [q Hq].
  exists q. split; [apply (plain_number_float _ _ Hq)|].
  split; [exact Hq|]. now apply (plain_number_nonneg s).
Qed.

(** ** The matches of the regular expressions *)

Lemma all_digits_forall (s : string) :
  Py.all_digits s = string_forall Py.is_digit s.
Proof. induction s as [|c s IH]; simpl; [reflexivity|now rewrite IH]. Qed.

Lemma string_forall_of_list (p : ascii -> bool) (l : list ascii) :
  string_forall p (string_of_list_ascii l) = forallb p l.
Proof. induction l as [|c l IH]; simpl; [reflexivity|now rewrite IH]. Qed.

Lemma forallb_rev_cons (p : ascii -> bool) (c : ascii) (l : list ascii) :
  p c = true -> forallb p (rev l) = true -> forallb p (rev (c :: l)) = true.
Proof.
  intros Hc Hl. simpl. rewrite forallb_app, Hl. simpl. now rewrite Hc.
Qed.

Lemma nonempty_of_rev (c : ascii) (l : list ascii) :
  Py.nonempty (string_of_list_ascii (rev (c :: l))) = true.
Proof.
  simpl. destruct (rev l) as [|d r]; reflexivity.
Qed.

(** Every run is a non-empty text of characters satisfying [p]. *)
Lemma runs_from_forall (p : ascii -> bool) (s : string) (cur : list ascii) :
  forallb p (rev cur) = true ->
  Forall (fun r => Py.nonempty r = true /\ string_forall p r = true)
         (Py.runs_from p cur s).
Proof.
  revert cur. induction s as [|c s IH]; intros cur Hcur; simpl.
  - destruct cur as [|d cur]; constructor; [|constructor].
    split; [apply nonempty_of_rev|]. now rewrite string_forall_of_list.
  - destruct (p c) eqn:Hc.
    + apply IH. now apply forallb_rev_cons.
    + destruct cur as [|d cur]; [now apply IH|].
      constructor; [|now apply IH].
      split; [apply nonempty_of_rev|]. now rewrite string_forall_of_list.
Qed.

Lemma findall_digits4_isdigit (s m : string) :
  In m (Py.findall_digits4 s) -> Py.isdigit m = true.
Proof.
  unfold Py.findall_digits4, Py.runs. intro H. apply filter_In in H.
  destruct H as [H _].
  pose proof (runs_from_forall Py.is_digit s [] eq_refl) as F.
  rewrite Forall_forall in F. destruct (F m H) as [Hn Hd].
  unfold Py.isdigit. now rewrite Hn, all_digits_forall, Hd.
Qed.

(** ** The interpreter and the strategies *)

Lemma resolve_ps_candidate (env : Env) (candidates : list string) :
  (resolve_ps env candidates = "powershell.exe"
   \/ In (resolve_ps env candidates) candidates)
  /\ (Py.startswith (resolve_ps env candidates) "/" = true ->
      path_exists env (resolve_ps env candidates) = true).
Proof.
  induction candidates as [|c rest [IH1 IH2]]; simpl.
  - split; [now left|discriminate].
  - destruct (Py.startswith c "/") eqn:Hs.
    + destruct (path_exists env c) eqn:He.
      * split; [right; now left|intros _; exact He].
      * split; [destruct IH1; [now left|right; now right]|exact IH2].
    + destruct (call env ["which"; c]) as [[|p|p]|];
        try (split; [destruct IH1; [now left|right; now right]|exact IH2]).
      split; [right; now left|]. rewrite Hs. discriminate.
Qed.

(** X2. The interpreter the probe uses is always one of the three ranked
    candidates; outside WSL mode it is the bare command; a mount path is
    chosen only if it exists; and in WSL mode the bare command is chosen
    whenever the search-path probe for it succeeds. *)
Theorem resolved_ps_sound (env : Env) (is_wsl_mode : bool) :
  In (resolved_ps env is_wsl_mode) ps_candidates
  /\ (is_wsl_mode = false -> resolved_ps env is_wsl_mode = "powershell.exe")
  /\ (Py.startswith (resolved_ps env is_wsl_mode) "/" = true ->
      path_exists env (resolved_ps env is_wsl_mode) = true)
  /\ (call env ["which"; "powershell.exe"] = Ret 0%Z ->
      resolved_ps env is_wsl_mode = "powershell.exe").
Proof.
  unfold resolved_ps. destruct is_wsl_mode.
  - destruct (resolve_ps_candidate env ps_candidates) as [H1 H2].
    split; [destruct H1 as [->|H1]; [now left|exact H1]|].
    split; [discriminate|]. split; [exact H2|].
    intro Hw. simpl. now rewrite Hw.
  - split; [now left|]. split; [reflexivity|]. split; [discriminate|reflexivity].
Qed.

Lemma resolved_ps_sound_witness :
  path_exists
    (Build_Env (Ret "5.15.90.1-microsoft-standard-WSL2") "Linux" []
               (fs_of [("/mnt/c/Windows/System32/powershell.exe", File "MZ")])
               (fun _ => SpawnError))
    (resolved_ps
       (Build_Env (Ret "5.15.90.1-microsoft-standard-WSL2") "Linux" []
                  (fs_of [("/mnt/c/Windows/System32/powershell.exe", File "MZ")])
                  (fun _ => SpawnError)) true) = true.
Proof.
  apply (proj1 (proj2 (proj2 (resolved_ps_sound
    (Build_Env (Ret "5.15.90.1-microsoft-standard-WSL2") "Linux" []
               (fs_of [("/mnt/c/Windows/System32/powershell.exe", File "MZ")])
               (fun _ => SpawnError)) true)))).
  reflexivity.
Defined.

(** X3. No strategy of the Windows/WSL probe can raise: each conversion is
    reached only behind a guard under which it succeeds, so the handler of
    the strategy loop is never needed for a conversion error. *)
Theorem strategy_never_raises
        (env : Env) (ps_exe : string) (debug : bool) (ps_cmd : string) :
  exists r, strategy env ps_exe debug ps_cmd = Ret r.
Proof.
  unfold strategy, handle_output.
  destruct (run_command env _ debug) as [r|]; [|eauto].
  destruct (Py.nonempty r); [|eauto].
  destruct (Py.contains "OpenHardwareMonitor" ps_cmd
            && Py.isdigit (Py.remove_first_dot r)) eqn:G.
  - apply andb_prop in G. destruct G as [_ G].
    destruct (float_guarded r G) as (q & -> & _). simpl. eauto.
  - destruct (Py.isdigit r) eqn:Hd; [|eauto].
    rewrite (float_isdigit _ Hd). simpl. eauto.
Qed.

(** X4. The first strategy that yields a reading decides the result of the
    probe: when the strategies before it yield nothing, neither the later
    strategies nor the wmic fallback are consulted. *)
Theorem first_success_wins
        (env : Env) (debug is_wsl_mode : bool) (pre post : list string)
        (ps_cmd : string) (c : Q) :
  commands = (pre ++ ps_cmd :: post)%list ->
  Forall (fun x => strategy env (resolved_ps env is_wsl_mode) debug x
                   = Ret None) pre ->
  strategy env (resolved_ps env is_wsl_mode) debug ps_cmd = Ret (Some c) ->
  strategies env (resolved_ps env is_wsl_mode) debug commands = Some c
  /\ get_windows_temp env debug is_wsl_mode = Ret (Some c).
Proof.
  intros Hc Hpre Hs.
  assert (strategies env (resolved_ps env is_wsl_mode) debug commands = Some c)
    as H.
  { rewrite Hc. clear Hc. induction Hpre as [|x pre Hx Hpre IH]; simpl.
    - now rewrite Hs.
    - rewrite Hx. simpl. exact IH. }
  split; [exact H|].
  unfold get_windows_temp. fold (resolved_ps env is_wsl_mode). now rewrite H.
Qed.

Lemma first_success_wins_witness :
  get_windows_temp (env_printing "Windows" "310") false false
  = Ret (Some (inject_Z 310 - 273.15)).
Proof.
  refine (proj2 (first_success_wins
                   (env_printing "Windows" "310") false false
                   [] [cmd_cim_instance; cmd_perf_counter; cmd_ohm]
                   cmd_wmi_object (inject_Z 310 - 273.15) _ _ _)).
  - reflexivity.
  - constructor.
  - reflexivity.
Defined.

Lemma findall_digits4_nonempty (r m : string) (ms : list string) :
  Py.findall_digits4 r = m :: ms -> Py.nonempty r = true.
Proof. destruct r; [discriminate|reflexivity]. Qed.

(** X5. When the four strategies yield nothing, the wmic fallback decides
    from the first run of four or more digits of its output alone: a value
    strictly between 2500 and 4000 is converted from deci-Kelvin, any other
    value gives no reading, whatever digits follow. *)
Theorem wmic_fallback_first_run
        (env : Env) (debug is_wsl_mode : bool) (r m : string)
        (ms : list string) :
  strategies env (resolved_ps env is_wsl_mode) debug commands = None ->
  run_command env (wmic_invocation env is_wsl_mode) debug = Some r ->
  Py.findall_digits4 r = m :: ms ->
  ((2500 < Py.digits_value m < 4000)%Z ->
   get_windows_temp env debug is_wsl_mode
   = Ret (Some (inject_Z (Py.digits_value m) / 10 - 273.15)))
  /\ (~ (2500 < Py.digits_value m < 4000)%Z ->
      get_windows_temp env debug is_wsl_mode = Ret None).
Proof.
  intros Hs Hr Hm.
  assert (Py.isdigit m = true) as Hd.
  { apply (findall_digits4_isdigit r). rewrite Hm. now left. }
  unfold get_windows_temp. fold (resolved_ps env is_wsl_mode). rewrite Hs.
  unfold wmic_fallback. unfold wmic_invocation in Hr. rewrite Hr.
  rewrite (findall_digits4_nonempty _ _ _ Hm), Hm, (float_isdigit _ Hd).
  simpl bind.
  change 2500 with (inject_Z 2500). change 4000 with (inject_Z 4000).
  rewrite !Qltb_inject.
  split; intro Hv.
  - replace ((2500 <? _) && _)%Z with true; [reflexivity|].
    symmetry. apply andb_true_iff. split; apply Z.ltb_lt; lia.
  - replace ((2500 <? _) && _)%Z with false; [reflexivity|].
    symmetry. apply andb_false_iff.
    destruct (Z.ltb_spec 2500 (Py.digits_value m)); [right|now left].
    apply Z.ltb_ge. lia.
Qed.

Lemma wmic_fallback_first_run_witness :
  get_windows_temp
    (Build_Env (Ret "10.0.19045") "Windows" [] (fun _ => Missing)
               (fun cmd => match cmd with
                           | "wmic.exe" :: _ =>
                               Exited 0 "CurrentTemperature 12 3010 9999"
                           | _ => SpawnError
                           end))
    false false
  = Ret (Some (inject_Z 3010 / 10 - 273.15)).
Proof.
  refine (proj1 (wmic_fallback_first_run
                   (Build_Env (Ret "10.0.19045") "Windows" [] (fun _ => Missing)
                              (fun cmd => match cmd with
                                          | "wmic.exe" :: _ =>
                                              Exited 0 "CurrentTemperature 12 3010 9999"
                                          | _ => SpawnError
                                          end))
                   false false "CurrentTemperature 12 3010 9999" "3010" ["9999"]
                   _ _ _) _).
  - reflexivity.
  - reflexivity.
  - reflexivity.
  - split; reflexivity.
Defined.

Lemma run_command_none (env : Env) (cmd_list : list string) (debug : bool) :
  (forall cmd out, spawn env cmd <> Exited 0 out) ->
  run_command env cmd_list debug = None.
Proof.
  intro H. unfold run_command.
  destruct (spawn env cmd_list) as [[|p|p] out|] eqn:E; try reflexivity.
  now destruct (H cmd_list out).
Qed.

(** X6. When no child process exits with status zero (tools missing or
    failing), the Windows/WSL probe and the macOS probe return absent without
    raising, and off native Linux the program prints [N/A] and ends
    normally. *)
Theorem no_child_no_reading (env : Env) (debug is_wsl_mode : bool) :
  (forall cmd out, spawn env cmd <> Exited 0 out) ->
  get_windows_temp env debug is_wsl_mode = Ret None
  /\ get_macos_temp env = Ret None
  /\ (is_wsl env = true \/ system env <> "Linux" ->
      main env = {| stdout := ["N/A"]; ending := Ret tt |}).
Proof.
  intro H.
  assert (forall d w, get_windows_temp env d w = Ret None) as Hw.
  { intros d w. unfold get_windows_temp, commands, wmic_fallback. simpl.
    unfold strategy. rewrite !(run_command_none env _ d H). reflexivity. }
  assert (get_macos_temp env = Ret None) as Hm.
  { unfold get_macos_temp. now rewrite (run_command_none env _ false H). }
  split; [apply Hw|]. split; [exact Hm|].
  intro Hsel. unfold main, select_probe.
  destruct (is_wsl env); [now rewrite Hw|].
  destruct Hsel as [Hsel|Hsel]; [discriminate|].
  destruct (String.eqb (system env) "Windows"); [now rewrite Hw|].
  destruct (String.eqb_spec (system env) "Linux"); [contradiction|].
  destruct (String.eqb (system env) "Darwin"); [now rewrite Hm|reflexivity].
Qed.

Lemma no_child_no_reading_witness :
  main (Build_Env (Ret "5.15.90.1-microsoft-standard-WSL2") "Linux"
                  ["gravity_bridge.py"; "--debug"] (fun _ => Missing)
                  (fun _ => Exited 1 "3032"))
  = {| stdout := ["N/A"]; ending := Ret tt |}.
Proof.
  refine (proj2 (proj2 (no_child_no_reading
                          (Build_Env (Ret "5.15.90.1-microsoft-standard-WSL2")
                                     "Linux" ["gravity_bridge.py"; "--debug"]
                                     (fun _ => Missing)
                                     (fun _ => Exited 1 "3032"))
                          true true _)) _).
  - intros cmd out. discriminate.
  - left. reflexivity.
Defined.

Lemma window_checked_range (t : Q) :
  window_checked t -> -73.15 < t /\ t < 150.
Proof.
  intros [val A B ->|val A B ->|A B].
  - assert (val / 10 == val * (1 # 10)) as E by (unfold Qdiv; reflexivity).
    rewrite E. split; lra.
  - split; lra.
  - split; lra.
Qed.

(** X7. Every reading of the Windows/WSL probe is above -73.15 degrees, and
    one of 150 degrees or more can only be a plain number printed by the
    open-hardware-monitor query. *)
Theorem windows_reading_range
        (env : Env) (debug is_wsl_mode : bool) (t : Q) :
  get_windows_temp env debug is_wsl_mode = Ret (Some t) ->
  -73.15 < t /\ (150 <= t -> ohm_direct env debug is_wsl_mode t).
Proof.
  intro H. apply windows_reading_checked in H. destruct H as [Ho|Hw].
  - split; [|intros _; exact Ho].
    destruct Ho as (raw & _ & Hg & Hf).
    destruct (float_guarded raw Hg) as (q & Hq & _ & Hpos).
    rewrite Hf in Hq. injection Hq as <-. lra.
  - destruct (window_checked_range _ Hw) as [A B]. split; [exact A|].
    intro C. exfalso. lra.
Qed.

Lemma windows_reading_range_witness :
  -73.15 < inject_Z 201 - 273.15.
Proof.
  apply (proj1 (windows_reading_range (env_printing "Windows" "201") false false
                                      (inject_Z 201 - 273.15) eq_refl)).
Defined.

(** ** The Linux probe *)

Lemma preferred_reading_nonneg (env : Env) (t : Q) :
  preferred_reading env t -> 0 <= t.
Proof.
  intros (zone & Hp & ->). unfold preferred_numeric in Hp. unfold zone_celsius.
  destruct (zone_texts env zone) as [[ty tc]|]; [|discriminate].
  apply andb_prop in Hp. destruct Hp as [_ Hd].
  pose proof (digits_value_nonneg _ (isdigit_all_digits _ Hd)) as Hv.
  unfold Qle, Qdiv, Qmult, Qinv, inject_Z. simpl. lia.
Qed.

(** X8. The Linux probe never returns a negative reading, and a reading
    that is not positive can only be the raw temp of a zone of a preferred
    type (a text with a minus sign is not numeric and is never used). *)
Theorem linux_reading_nonneg (env : Env) (t : Q) :
  get_linux_native_temp env = Ret (Some t) ->
  0 <= t /\ (~ 0 < t -> preferred_reading env t).
Proof.
  unfold get_linux_native_temp.
  destruct (path_exists env base_path); [|discriminate]. simpl.
  destruct (try_ (thermal_scan env)) as [c|] eqn:E.
  - intro H. injection H as <-. apply try_some in E.
    destruct (thermal_scan_checked _ _ E) as [Hp|Hpos].
    + split; [now apply (preferred_reading_nonneg env)|intros _; exact Hp].
    + split; [now apply Qlt_le_weak|intro N; contradiction].
  - intro H. injection H as H. apply try_some in H.
    apply hwmon_scan_window in H. destruct H as [A _].
    assert (0 < t) as Hpos by lra.
    split; [now apply Qlt_le_weak|intro N; contradiction].
Qed.

Lemma linux_reading_nonneg_witness :
  0 <= inject_Z 45000 / 1000.
Proof.
  apply (proj1 (linux_reading_nonneg
                  (linux_env (example_zones ["thermal_zone0"; "thermal_zone1"]
                                            (File "35000")))
                  (inject_Z 45000 / 1000) eq_refl)).
Defined.

(** X9. The hwmon fallback opens only files named [temp*_input]: the other
    entries of a device directory, readable or not, have no effect on the
    result. *)
Theorem hwmon_reads_only_temp_inputs
        (env : Env) (h_path : string) (files : list string) :
  scan_files env h_path (filter temp_input files) = scan_files env h_path files.
Proof.
  induction files as [|f rest IH]; [reflexivity|].
  cbn [filter]. destruct (temp_input f) eqn:Ht.
  - simpl. fold (temp_input f). rewrite Ht.
    destruct (read_text env (Py.join h_path f)) as [content|]; [|reflexivity].
    simpl. destruct (Py.isdigit (Py.strip content)); [|exact IH].
    destruct (Py.float (Py.strip content)) as [val|]; [|reflexivity].
    simpl. destruct (Qltb 10 (val / 1000) && Qltb (val / 1000) 150);
      [reflexivity|exact IH].
  - rewrite IH. simpl. fold (temp_input f). now rewrite Ht.
Qed.

Lemma scan_devices_skip (env : Env) (pre rest : list string) :
  Forall (fun d => exists files,
              fs env (Py.join hwmon_base d) = Dir files
              /\ scan_files env (Py.join hwmon_base d) files = Ret None) pre ->
  scan_devices env (pre ++ rest) = scan_devices env rest.
Proof.
  induction 1 as [|d pre (files & Hd & Hs) Hpre IH]; [reflexivity|].
  simpl. unfold listdir. rewrite Hd. simpl. rewrite Hs. simpl. exact IH.
Qed.

(** X10. The hwmon devices are tried in enumeration order once the
    thermal-zone scan has given nothing: after devices without a reading in
    the window, a device with one decides the result, and a device entry
    that cannot be listed ends the fallback with no reading, whatever the
    later devices hold. *)
Theorem hwmon_devices_in_order
        (env : Env) (pre post : list string) (hw : string) :
  path_exists env base_path = true ->
  try_ (thermal_scan env) = None ->
  fs env hwmon_base = Dir (pre ++ hw :: post)%list ->
  Forall (fun d => exists files,
              fs env (Py.join hwmon_base d) = Dir files
              /\ scan_files env (Py.join hwmon_base d) files = Ret None) pre ->
  (forall files t,
      fs env (Py.join hwmon_base hw) = Dir files ->
      scan_files env (Py.join hwmon_base hw) files = Ret (Some t) ->
      get_linux_native_temp env = Ret (Some t))
  /\ ((forall files, fs env (Py.join hwmon_base hw) <> Dir files) ->
      get_linux_native_temp env = Ret None).
Proof.
  intros Hb Ht Hh Hpre.
  assert (get_linux_native_temp env
          = Ret (try_ (scan_devices env (hw :: post)))) as E.
  { unfold get_linux_native_temp. rewrite Hb, Ht. simpl.
    unfold hwmon_scan, path_exists, listdir. rewrite Hh. simpl.
    now rewrite (scan_devices_skip _ _ _ Hpre). }
  rewrite E. split.
  - intros files t Hd Hs. simpl. unfold listdir. rewrite Hd. simpl.
    rewrite Hs. reflexivity.
  - intro Hn. simpl. unfold listdir.
    destruct (fs env (Py.join hwmon_base hw)) as [|c| |files] eqn:Hd;
      try reflexivity.
    now destruct (Hn files).
Qed.

Lemma hwmon_devices_in_order_witness :
  get_linux_native_temp
    (linux_env [ (base_path, Dir []);
                 (hwmon_base, Dir ["hwmon0"; "hwmon1"; "hwmon2"]);
                 (Py.join hwmon_base "hwmon0", Dir ["name"]);
                 (Py.join hwmon_base "hwmon1", File "stale");
                 (Py.join hwmon_base "hwmon2", Dir ["temp1_input"]);
                 (Py.join (Py.join hwmon_base "hwmon2") "temp1_input",
                  File "50000") ])
  = Ret None.
Proof.
  refine (proj2 (hwmon_devices_in_order
                   (linux_env
                      [ (base_path, Dir []);
                        (hwmon_base, Dir ["hwmon0"; "hwmon1"; "hwmon2"]);
                        (Py.join hwmon_base "hwmon0", Dir ["name"]);
                        (Py.join hwmon_base "hwmon1", File "stale");
                        (Py.join hwmon_base "hwmon2", Dir ["temp1_input"]);
                        (Py.join (Py.join hwmon_base "hwmon2") "temp1_input",
                         File "50000") ])
                   ["hwmon0"] ["hwmon2"] "hwmon1" _ _ _ _) _).
  - reflexivity.
  - reflexivity.
  - reflexivity.
  - constructor; [|constructor]. exists ["name"]. split; reflexivity.
  - intros files. discriminate.
Defined.

(** ** The macOS probe *)

(** X11. With the output of the temperature tool at hand, the macOS probe
    looks at the first run of digits and dots only: with no such run it
    returns absent; when the run has at least one digit and at most one dot
    it returns the number it denotes, which is not negative; otherwise it
    raises. *)
Theorem macos_probe_outcome (env : Env) (out : string) :
  spawn env ["osx-cpu-temp"] = Exited 0 out ->
  (Py.findall_number (Py.strip out) = [] -> get_macos_temp env = Ret None)
  /\ (forall m ms,
         Py.findall_number (Py.strip out) = m :: ms ->
         (Py.isdigit (Py.remove_first_dot m) = true ->
          exists q, get_macos_temp env = Ret (Some q)
                    /\ plain_number m q /\ 0 <= q)
         /\ (Py.isdigit (Py.remove_first_dot m) = false ->
             get_macos_temp env = Raise)).
Proof.
  intro Hs. unfold get_macos_temp, run_command. rewrite Hs. split.
  - intro Hn. rewrite Hn. destruct (Py.nonempty (Py.strip out)); reflexivity.
  - intros m ms Hm. rewrite Hm.
    assert (Py.nonempty (Py.strip out) = true) as Hne.
    { destruct (Py.strip out); [discriminate|reflexivity]. }
    rewrite Hne. split; intro Hg.
    + destruct (float_guarded m Hg) as (q & Hq & Hp & Hpos).
      exists q. rewrite Hq. auto.
    + destruct (Py.float m) as [q|] eqn:Hf; [|reflexivity].
      assert (exists q, Py.float m = Ret q) as Hex by eauto.
      apply float_ok_iff in Hex. congruence.
Qed.

Lemma macos_probe_outcome_witness :
  exists q, get_macos_temp (env_printing "Darwin" "61.2 C") = Ret (Some q)
            /\ plain_number "61.2" q /\ 0 <= q.
Proof.
  refine (proj1 (proj2 (macos_probe_outcome (env_printing "Darwin" "61.2 C")
                                            "61.2 C" _)
                       "61.2" [] _) _); reflexivity.
Defined.

(** ** The Reporter *)











(** X14. The program ends with an uncaught exception exactly when it runs
    the macOS probe (no WSL, OS family Darwin) and that probe raises; it has
    then printed nothing. *)
Theorem main_raises_iff (env : Env) :
  (ending (main env) = Raise
   <-> is_wsl env = false /\ system env = "Darwin"
       /\ get_macos_temp env = Raise)
  /\ (ending (main env) = Raise -> stdout (main env) = []).
Proof.
  split; [split|].
  - unfold main.
    destruct (select_probe env _) as [[temp|]|] eqn:E; simpl; try discriminate.
    intros _. now apply (select_probe_raise env _ E).
  - intros (Hw & Hs & Hm). unfold main, select_probe.
    rewrite Hw, Hs, Hm. reflexivity.
  - unfold main.
    destruct (select_probe env _) as [[temp|]|]; simpl; try discriminate.
    reflexivity.
Qed.

Lemma main_raises_iff_witness :
  ending (main (env_printing "Darwin" "..")) = Raise.
Proof.
  apply (proj2 (proj1 (main_raises_iff (env_printing "Darwin" "..")))).
  repeat split.
Defined.

(** ** Unusable zones and blank outputs *)

(** X15. When every thermal zone can be visited without a read error and
    none has a usable reading (a file is missing, the raw temp is not
    numeric, or it is zero on a zone that is not of a preferred type), the
    thermal-zone scan gives nothing and the result of the probe is that of
    the hwmon fallback. *)
Theorem unusable_zones_fall_back
        (env : Env) (entries : list string) :
  fs env base_path = Dir entries ->
  forallb (passes env) (thermal_zones entries) = true ->
  forallb (fun z => negb (positive_numeric env z)) (thermal_zones entries)
  = true ->
  thermal_scan env = Ret None
  /\ get_linux_native_temp env = Ret (try_ (hwmon_scan env)).
Proof.
  intros Hb Hp Hn.
  assert (thermal_scan env = Ret None) as E.
  { unfold thermal_scan, listdir. rewrite Hb. simpl.
    fold (thermal_zones entries).
    rewrite <- (app_nil_r (thermal_zones entries)).
    rewrite (scan_zones_pass _ _ _ _ Hp), (fold_candidate_none _ _ Hn).
    reflexivity. }
  split; [exact E|].
  unfold get_linux_native_temp, path_exists. rewrite Hb, E. reflexivity.
Qed.

Lemma unusable_zones_fall_back_witness :
  get_linux_native_temp
    (linux_env [ (base_path, Dir ["cooling_device0"; "thermal_zone0";
                                  "thermal_zone1"]);
                 (type_path "thermal_zone0", File "acpitz");
                 (temp_path "thermal_zone0", File "0");
                 (type_path "thermal_zone1", File "coretemp");
                 (temp_path "thermal_zone1", File "-5000");
                 (hwmon_base, Dir ["hwmon0"]);
                 (Py.join hwmon_base "hwmon0", Dir ["temp1_input"]);
                 (Py.join (Py.join hwmon_base "hwmon0") "temp1_input",
                  File "41000") ])
  = Ret (Some (inject_Z 41000 / 1000)).
Proof.
  refine (eq_trans
            (proj2 (unusable_zones_fall_back
                      (linux_env
                         [ (base_path, Dir ["cooling_device0"; "thermal_zone0";
                                            "thermal_zone1"]);
                           (type_path "thermal_zone0", File "acpitz");
                           (temp_path "thermal_zone0", File "0");
                           (type_path "thermal_zone1", File "coretemp");
                           (temp_path "thermal_zone1", File "-5000");
                           (hwmon_base, Dir ["hwmon0"]);
                           (Py.join hwmon_base "hwmon0", Dir ["temp1_input"]);
                           (Py.join (Py.join hwmon_base "hwmon0") "temp1_input",
                            File "41000") ])
                      ["cooling_device0"; "thermal_zone0"; "thermal_zone1"]
                      _ _ _)) _);
    reflexivity.
Defined.

Lemma lstrip_empty_iff (s : string) :
  Py.lstrip s = EmptyString <-> string_forall Py.is_space s = true.
Proof.
  induction s as [|c s IH]; simpl; [tauto|].
  destruct (Py.is_space c); simpl; [exact IH|].
  split; discriminate.
Qed.

Lemma strip_empty_iff (s : string) :
  Py.strip s = EmptyString <-> string_forall Py.is_space s = true.
Proof.
  rewrite <- lstrip_empty_iff. unfold Py.strip.
  destruct (lstrip_head s) as [E|(c & r & E & Hc)]; rewrite E.
  - simpl. tauto.
  - destruct (rstrip_head c r Hc) as [r' ->]. split; discriminate.
Qed.

(** X16. The runner returns the empty string exactly when the child exited
    with status zero and printed nothing but white space; a strategy of the
    Windows/WSL probe then gives no reading. *)
Theorem blank_output_is_empty
        (env : Env) (ps_exe : string) (debug : bool) (ps_cmd : string) :
  (run_command env (ps_invocation ps_exe ps_cmd) debug = Some ""
   <-> exists out, spawn env (ps_invocation ps_exe ps_cmd) = Exited 0 out
                   /\ string_forall Py.is_space out = true)
  /\ (run_command env (ps_invocation ps_exe ps_cmd) debug = Some "" ->
      strategy env ps_exe debug ps_cmd = Ret None).
Proof.
  split.
  - unfold run_command.
    destruct (spawn env (ps_invocation ps_exe ps_cmd)) as [[|p|p] out|]; split;
      try discriminate;
      try (intros (o & Ho & _); discriminate).
    + intro H. injection H as H. exists out. split; [reflexivity|].
      now apply strip_empty_iff.
    + intros (o & Ho & Hsp). injection Ho as <-.
      apply strip_empty_iff in Hsp. now rewrite Hsp.
  - intro H. unfold strategy. fold (ps_invocation ps_exe ps_cmd).
    now rewrite H.
Qed.

Lemma blank_output_is_empty_witness :
  strategy (env_printing "Windows" "
  ") "powershell.exe" false cmd_wmi_object = Ret None.
Proof.
  apply (proj2 (blank_output_is_empty (env_printing "Windows" "
  ") "powershell.exe" false cmd_wmi_object)).
  reflexivity.
Defined.
